(** * Festival-Playlists: a shallow embedding of [festival.py]

    The script resolves artist names against the Spotify search API,
    picks up to five top tracks per artist and adds them to a playlist in
    batches.  This development embeds the two worker functions
    ([fetch_artist_details], [fetch_top_songs]), the batch helper
    ([add_tracks_in_batches]) and the orchestration in [main], and proves
    the properties of the specification against them.

    Modelling conventions.
    - Python [str] values are Rocq [string]s (8-bit characters); [str.lower]
      maps [A-Z] to [a-z] and leaves every other character alone, which is
      what Python does on ASCII text.
    - The Spotify client [sp] is a record of oracles, one per endpoint the
      script calls; an endpoint either raises or returns a well-formed
      response.
    - Code that appends to a [logs] list and may raise runs in a small
      state-and-exception monad; the log written before a [raise] survives
      into the [except] handler, as the list object does in Python.
    - The thread pool's [executor.map] yields results in input order, so a
      phase is a [map] over its inputs.
    - The resolver looks the global name [difflib] up at run time; the
      binding is a parameter of the embedding, and [module_difflib] is the
      binding the module's own import lines give it. *)

From Stdlib Require Import String Ascii List Bool Arith Lia DecimalString.
From Stdlib Require Import QArith.
Import ListNotations.
Open Scope string_scope.
Open Scope nat_scope.

(** ** Python strings *)

Module PyStr.

Definition lower_char (c : ascii) : ascii :=
  let n := nat_of_ascii c in
  if (65 <=? n) && (n <=? 90) then ascii_of_nat (n + 32) else c.

(** [s.lower()] *)
Fixpoint lower (s : string) : string :=
  match s with
  | EmptyString => EmptyString
  | String c rest => String (lower_char c) (lower rest)
  end.

(** [s.startswith(p)] *)
Fixpoint startswith (p s : string) : bool :=
  match p, s with
  | EmptyString, _ => true
  | String a p', String b s' => Ascii.eqb a b && startswith p' s'
  | String _ _, EmptyString => false
  end.

(** [sub in s] *)
Fixpoint contains (sub s : string) : bool :=
  startswith sub s ||
  match s with
  | EmptyString => false
  | String _ s' => contains sub s'
  end.

(** [s[n:]] *)
Fixpoint slice_from (n : nat) (s : string) : string :=
  match n, s with
  | O, _ => s
  | S _, EmptyString => EmptyString
  | S n', String _ s' => slice_from n' s'
  end.

(** [sep.join(l)] *)
Fixpoint join (sep : string) (l : list string) : string :=
  match l with
  | [] => ""
  | [x] => x
  | x :: rest => x ++ sep ++ join sep rest
  end.

(** [str(n)] for a non-negative [int] *)
Definition of_nat (n : nat) : string := NilEmpty.string_of_uint (Nat.to_uint n).

(** [str(b)] for a [bool] *)
Definition of_bool (b : bool) : string := if b then "True" else "False".

Definition nl : string := String (ascii_of_nat 10) "".

Definition is_space (c : ascii) : bool :=
  let n := nat_of_ascii c in
  ((9 <=? n) && (n <=? 13)) || ((28 <=? n) && (n <=? 32)).

Fixpoint lstrip (s : string) : string :=
  match s with
  | EmptyString => EmptyString
  | String c rest => if is_space c then lstrip rest else s
  end.

Fixpoint rstrip (s : string) : string :=
  match s with
  | EmptyString => EmptyString
  | String c rest =>
      match rstrip rest with
      | EmptyString => if is_space c then EmptyString else String c EmptyString
      | r => String c r
      end
  end.

(** [s.strip()] *)
Definition strip (s : string) : string := rstrip (lstrip s).

(** The propositional reading of substring containment. *)
Definition Substring (sub s : string) : Prop :=
  exists pre post, s = pre ++ sub ++ post.

(** "contains [sub], ignoring case": [sub] (given in lower case) occurs
    in the lower-cased text. *)
Definition ContainsNoCase (sub s : string) : Prop := Substring sub (lower s).

End PyStr.

(** ** Exceptions and the worker monad *)

Inductive exn : Type :=
| NameError (name : string)
| IndexError
| SpotifyException (msg : string)
| OtherException (msg : string).

(** [str(e)] as interpolated by the f-strings of the handlers. *)
Definition exn_str (e : exn) : string :=
  match e with
  | NameError name => "name '" ++ name ++ "' is not defined"
  | IndexError => "list index out of range"
  | SpotifyException msg => msg
  | OtherException msg => msg
  end.

(** [isinstance(e, spotipy.exceptions.SpotifyException)] *)
Definition is_SpotifyException (e : exn) : bool :=
  match e with SpotifyException _ => true | _ => false end.

Module Py.

(** A computation over an append-only list of [L] entries that returns a
    value or raises. *)
Definition M (L A : Type) : Type := list L -> (exn + A) * list L.

Definition ret {L A} (a : A) : M L A := fun l => (inr a, l).

Definition bind {L A B} (m : M L A) (f : A -> M L B) : M L B :=
  fun l =>
    match m l with
    | (inr a, l') => f a l'
    | (inl e, l') => (inl e, l')
    end.

Definition raise {L A} (e : exn) : M L A := fun l => (inl e, l).

(** [logs.append(x)] *)
Definition append {L} (x : L) : M L unit := fun l => (inr tt, (l ++ [x])%list).

(** the outcome of an external call *)
Definition call {L A} (r : exn + A) : M L A := fun l => (r, l).

(** [try: m  except Exception as e: h e] *)
Definition try_except {L A} (m : M L A) (h : exn -> M L A) : M L A :=
  fun l =>
    match m l with
    | (inl e, l') => h e l'
    | r => r
    end.

(** [xs[i]] *)
Definition index {L A} (xs : list A) (i : nat) : M L A :=
  match nth_error xs i with
  | Some x => ret x
  | None => raise IndexError
  end.

End Py.

Declare Scope py_scope.
Delimit Scope py_scope with py.
Notation "x <- m ;; k" := (Py.bind m (fun x => k))
  (at level 61, m at next level, right associativity) : py_scope.
Notation "m ;; k" := (Py.bind m (fun _ => k))
  (at level 61, right associativity) : py_scope.

(** ** Data *)

(** One artist of a search response: the fields the script reads. *)
Record Item : Type := { item_name : string; item_id : string; item_genres : list string }.

(** One track of a top-tracks response. *)
Record Track : Type := { track_name : string; track_id : string }.

(** [ArtistData]: the dict built by [fetch_artist_details]. *)
Record ArtistData : Type := { ad_name : string; ad_id : string; ad_genres : list string }.

(** [SongData]: the dict built by [fetch_top_songs]. *)
Record SongData : Type :=
  { sd_id : string; sd_name : string; sd_artist_name : string; sd_artist_id : string }.

(** The endpoints of [spotipy.Spotify] the script calls.
    [search q] is [sp.search(q, limit=5, type="artist")["artists"]["items"]],
    [artist_top_tracks i] is [sp.artist_top_tracks(i)["tracks"]],
    [user_playlist_create u n] is [sp.user_playlist_create(u, n, public=True)["id"]]. *)
Record Spotify : Type := {
  search : string -> exn + list Item;
  artist_top_tracks : string -> exn + list Track;
  user_playlist_create : string -> string -> exn + string;
  user_playlist_add_tracks : string -> string -> list string -> exn + unit
}.

(** A worker returns [(result, logs)], unless it raises. *)
Definition WorkerResult (A : Type) : Type := (exn + A) * list string.

(** ** Track Selector: [fetch_top_songs] *)

Import PyStr.

(** line 61 of [main] *)
Definition remixes_allowed_genres : list string :=
  ["house"; "dub"; "trance"; "breakbeat"; "bass"; "techno"; "edm"; "dance"].

(** line 209: [any(remix_genre in genre for genre in artist_genres
                   for remix_genre in remixes_allowed)] *)
Definition allow_remixes_flag (artist_genres remixes_allowed : list string) : bool :=
  existsb (fun genre => existsb (fun remix_genre => contains remix_genre genre) remixes_allowed)
          artist_genres.

(** lines 229-233 *)
Definition is_remix (song_name : string) : bool :=
  contains "remix" (lower song_name)
  || (contains "edit" (lower song_name)
      && negb (contains "radio edit" (lower song_name))
      && negb (contains "album edit" (lower song_name))).

Definition added_msg (t : Track) : string :=
  "  > ADDED: '" ++ track_name t ++ "' | ID: " ++ track_id t.

Definition skipped_msg (t : Track) : string :=
  "  > SKIPPED: '" ++ track_name t ++ "' (Remix/Edit detected and not allowed by genre.)".

(** lines 224-244: the scan with its [break]. *)
Fixpoint select_loop (allow_remixes : bool) (tracks : list Track) (tracks_to_add : list Track)
  : Py.M string (list Track) :=
  match tracks with
  | [] => Py.ret tracks_to_add
  | track :: rest =>
      (tracks_to_add' <-
         (if allow_remixes || negb (is_remix (track_name track))
          then (Py.append (added_msg track) ;; Py.ret (tracks_to_add ++ [track])%list)
          else (Py.append (skipped_msg track) ;; Py.ret tracks_to_add)) ;;
       if 5 <=? length tracks_to_add'
       then Py.ret tracks_to_add'
       else select_loop allow_remixes rest tracks_to_add')%py
  end.

Definition mk_song (artist_name artist_id : string) (t : Track) : SongData :=
  {| sd_id := track_id t; sd_name := track_name t;
     sd_artist_name := artist_name; sd_artist_id := artist_id |}.

Definition top_songs_header (artist_name artist_id : string) : string :=
  nl ++ "--- Top Songs: " ++ artist_name ++ " (" ++ artist_id ++ ") ---".

Definition no_tracks_msg (artist_name : string) : string :=
  "  > WARNING: No top tracks available for " ++ artist_name ++ ".".

Definition final_count_msg (artist_name : string) (count : nat) : string :=
  "  > Final Count: " ++ of_nat count ++ " songs added for " ++ artist_name.

Definition tracks_error_msg (artist_name : string) (e : exn) : string :=
  if is_SpotifyException e
  then "[ERROR] Spotify API Error fetching tracks for " ++ artist_name ++ ": "
       ++ exn_str e ++ ". Skipping."
  else "[ERROR] An unexpected error occurred fetching tracks for " ++ artist_name
       ++ ": " ++ exn_str e ++ ". Skipping.".

(** lines 212-259: the body of the [try]. *)
Definition fetch_top_songs_try (sp : Spotify) (artist_name artist_id : string)
           (allow_remixes : bool) : Py.M string (list SongData) :=
  (all_tracks <- Py.call (artist_top_tracks sp artist_id) ;;
   match all_tracks with
   | [] =>
       Py.append (no_tracks_msg artist_name) ;;
       Py.ret []
   | _ =>
       tracks_to_add <- select_loop allow_remixes (firstn 10 all_tracks) [] ;;
       let tracks := map (mk_song artist_name artist_id) (firstn 5 tracks_to_add) in
       Py.append (final_count_msg artist_name (length tracks)) ;;
       Py.ret tracks
   end)%py.

(** lines 261-266: the two [except] clauses, which differ in the message
    only ([tracks_error_msg]). *)
Definition fetch_top_songs_except (artist_name : string) (e : exn) : Py.M string (list SongData) :=
  (Py.append (tracks_error_msg artist_name e) ;; Py.ret [])%py.

Definition remix_check_msg (flag : bool) : string :=
  "  > Remix Check: Genres permit remixes/edits? " ++ of_bool flag.

Definition fetch_top_songs (sp : Spotify) (artist_details : ArtistData)
           (remixes_allowed : list string) : WorkerResult (list SongData) :=
  let artist_name := ad_name artist_details in
  let artist_id := ad_id artist_details in
  let artist_genres := ad_genres artist_details in
  let logs := [top_songs_header artist_name artist_id] in
  let allow_remixes := allow_remixes_flag artist_genres remixes_allowed in
  (Py.append (remix_check_msg allow_remixes) ;;
   Py.try_except (fetch_top_songs_try sp artist_name artist_id allow_remixes)
                 (fetch_top_songs_except artist_name))%py logs.

(** ** Artist Resolver: [fetch_artist_details] *)

(** [a > b] on the similarity scale.  [ratio()] is the float nearest to
    [2*M/T] for integers [M <= T]; against the literal [0.90] the float
    test and the rational test agree for every pair of strings of total
    length below [2^50], so the score is kept as an exact rational. *)
Definition Qgt_bool (a b : Q) : bool := negb (Qle_bool a b).

Section Resolver.

(** What the name [difflib] is bound to in the module namespace when line
    160 runs: [None] when no binding exists, [Some ratio] when the module
    is bound, with [ratio a b] standing for
    [difflib.SequenceMatcher(None, a, b).ratio()]. *)
Variable difflib : option (string -> string -> Q).

(** the global name lookup of line 160 *)
Definition lookup_difflib : Py.M string (string -> string -> Q) :=
  match difflib with
  | Some ratio => Py.ret ratio
  | None => Py.raise (NameError "difflib")
  end.

(** lines 150-168: the scan with its three [break]s; the result is
    [best_match_item]. *)
Fixpoint match_loop (normalized_query : string) (items : list Item)
  : Py.M string (option Item) :=
  match items with
  | [] => Py.ret None
  | item :: rest =>
      let spotify_name := item_name item in
      if (lower spotify_name =? normalized_query)%string then Py.ret (Some item)
      else
        (ratio <- lookup_difflib ;;
         let similarity := ratio normalized_query (lower spotify_name) in
         if Qgt_bool similarity (90 # 100) then Py.ret (Some item)
         else if startswith "the " normalized_query
                 && (lower spotify_name =? slice_from 4 normalized_query)%string
              then Py.ret (Some item)
              else match_loop normalized_query rest)%py
  end.

Definition not_found_msg (artist_name : string) : string :=
  "[WARNING] Artist: '" ++ artist_name ++ "' not found on Spotify. Skipping.".

Definition no_close_match_msg (artist_name top_result_name : string) : string :=
  "[WARNING] Artist: '" ++ artist_name ++ "' has no close match in top 5. Top result was '"
  ++ top_result_name ++ "'. Skipping.".

Definition details_error_msg (artist_name : string) (e : exn) : string :=
  "[ERROR] Fetching details for '" ++ artist_name ++ "' failed: " ++ exn_str e ++ ". Skipping.".

(** lines 139-192: the body of the [try]. *)
Definition fetch_artist_details_try (sp : Spotify) (artist_name : string)
  : Py.M string (option ArtistData) :=
  let normalized_query := lower artist_name in
  (items <- Py.call (search sp artist_name) ;;
   match items with
   | [] => Py.append (not_found_msg artist_name) ;; Py.ret None
   | _ =>
       best_match_item <- match_loop normalized_query items ;;
       match best_match_item with
       | None =>
           top <- Py.index items 0 ;;
           let top_result_name := item_name top in
           Py.append (no_close_match_msg artist_name top_result_name) ;;
           Py.ret None
       | Some best =>
           let artist_id := item_id best in
           let artist_genres := item_genres best in
           let spotify_name := item_name best in
           Py.append ("--- Artist Details: " ++ artist_name ++ " ---") ;;
           Py.append ("  > Matched Spotify Name: " ++ spotify_name) ;;
           Py.append ("  > ID: " ++ artist_id) ;;
           Py.append ("  > Genres: " ++ match artist_genres with
                                        | [] => "None"
                                        | _ => join ", " artist_genres
                                        end) ;;
           Py.ret (Some {| ad_name := spotify_name; ad_id := artist_id;
                           ad_genres := artist_genres |})
       end
   end)%py.

(** lines 131-196 *)
Definition fetch_artist_details (sp : Spotify) (artist_name : string)
  : WorkerResult (option ArtistData) :=
  Py.try_except (fetch_artist_details_try sp artist_name)
                (fun e => Py.append (details_error_msg artist_name e) ;; Py.ret None)%py
                [].

End Resolver.

(** Lines 1-8 of [festival.py] import [logging], [os], [sys],
    [ThreadPoolExecutor], five names of [typing], [spotipy] and
    [spotipy.util]; no statement of the module binds the name [difflib]. *)
Definition module_difflib : option (string -> string -> Q) := None.

(** ** Batch add: [add_tracks_in_batches] *)

Inductive level : Type := INFO | WARNING | ERROR.

(** What the main thread does to the outside world, in order. *)
Inductive event : Type :=
| Logging (lv : level) (msg : string)
| Print (msg : string)
| PlaylistCreate (username name : string)
| PlaylistAddTracks (username playlist_id : string) (batch : list string).

Module PyList.

(** [range(start, stop, step)] for [step >= 1]; [fuel] bounds the number
    of elements. *)
Fixpoint range_from (fuel start stop step : nat) : list nat :=
  match fuel with
  | O => []
  | S fuel' => if start <? stop then start :: range_from fuel' (start + step) stop step else []
  end.

Definition range (start stop step : nat) : list nat := range_from stop start stop step.

(** [xs[i:j]] *)
Definition slice {A} (xs : list A) (i j : nat) : list A := firstn (j - i) (skipn i xs).

(** [for x in xs: body x] *)
Fixpoint for_each {L A} (xs : list A) (body : A -> Py.M L unit) : Py.M L unit :=
  match xs with
  | [] => Py.ret tt
  | x :: rest => (body x ;; for_each rest body)%py
  end.

End PyList.

Definition added_batch_msg (number size : nat) : string :=
  "Added batch " ++ of_nat number ++ " (" ++ of_nat size ++ " tracks) to the playlist.".

(** lines 269-278.  [int(i/batch_size)] is the integer quotient: [i] is a
    multiple of [batch_size]. *)
Definition add_tracks_in_batches (sp : Spotify) (username playlist_id : string)
           (song_ids : list string) : Py.M event unit :=
  let batch_size := 100 in
  PyList.for_each (PyList.range 0 (length song_ids) batch_size) (fun i =>
    let batch := PyList.slice song_ids i (i + batch_size) in
    (Py.append (PlaylistAddTracks username playlist_id batch) ;;
     Py.call (user_playlist_add_tracks sp username playlist_id batch) ;;
     Py.append (Logging INFO (added_batch_msg (i / batch_size + 1) (length batch))))%py).

(** ** Orchestrator: [main] *)

(** Everything [main] reads from its surroundings. *)
Record World : Type := {
  argv : list string;                                 (* sys.argv *)
  coachella2026_txt : option (list string);           (* the lines of the input file, if it exists *)
  CLIENT_ID : option string;                          (* os.getenv("CLIENT_ID") *)
  CLIENT_SECRET : option string;                      (* os.getenv("CLIENT_SECRET") *)
  prompt_for_user_token : string -> option string;    (* util.prompt_for_user_token(username, ...) *)
  Spotify_auth : string -> Spotify                    (* spotipy.Spotify(auth=token) *)
}.

(** How [main] ends: [sys.exit(code)], a plain [return] (or falling off
    the end), or an exception nobody caught. *)
Inductive exit_status : Type :=
| SysExit (code : nat)
| Returned
| Uncaught (e : exn).

(** truth value of a [str] *)
Definition nonempty (s : string) : bool :=
  match s with EmptyString => false | String _ _ => true end.

(** truth value of an optional [str] ([None] is falsy) *)
Definition truthy (s : option string) : bool :=
  match s with Some s' => nonempty s' | None => false end.

(** [list(executor.map(worker, inputs))]: the results in input order; the
    first worker exception met while collecting is re-raised. *)
Fixpoint gather {A} (results : list (WorkerResult A)) : exn + list (A * list string) :=
  match results with
  | [] => inr []
  | (inl e, _) :: _ => inl e
  | (inr a, logs) :: rest =>
      match gather rest with
      | inl e => inl e
      | inr rs => inr ((a, logs) :: rs)
      end
  end.

Definition phase1_banner : string :=
  nl ++ "--- PHASE 1: Fetching Artist IDs and Genres (Parallel) ---".
Definition phase2_banner : string :=
  nl ++ "--- PHASE 2: Fetching Top Songs (Parallel) ---".
Definition phase3_banner : string :=
  nl ++ "--- PHASE 3: Creating Playlist and Adding Tracks (Batch) ---".

(** lines 117-122: the body of the [try] of phase 3. *)
Definition playlist_try (sp : Spotify) (username playlist_name : string)
           (song_ids : list string) : Py.M event unit :=
  (Py.append (PlaylistCreate username playlist_name) ;;
   playlist_id <- Py.call (user_playlist_create sp username playlist_name) ;;
   Py.append (Logging INFO ("Successfully created playlist: " ++ playlist_name)) ;;
   add_tracks_in_batches sp username playlist_id song_ids ;;
   Py.append (Logging INFO (nl ++ "Playlist '" ++ playlist_name
                            ++ "' was created successfully with "
                            ++ of_nat (length song_ids) ++ " songs 🎉")))%py.

(** lines 124-128 *)
Definition playlist_except (e : exn) : Py.M event unit :=
  if is_SpotifyException e
  then Py.append (Logging ERROR
         ("Spotify API Error during playlist creation or track addition: " ++ exn_str e))
  else Py.append (Logging ERROR ("An unexpected error occurred: " ++ exn_str e)).

(** lines 114-128 *)
Definition playlist_phase (sp : Spotify) (username playlist_name : string)
           (song_ids : list string) : Py.M event unit :=
  (Py.append (Logging INFO phase3_banner) ;;
   Py.try_except (playlist_try sp username playlist_name song_ids) playlist_except)%py.

Section Orchestrator.

Variable difflib : option (string -> string -> Q).

(** lines 66-128: the three phases. *)
Definition run_phases (sp : Spotify) (username playlist_name : string)
           (artists : list string) : list event * exit_status :=
  let ev1 := [Logging INFO phase1_banner] in
  match gather (map (fun name => fetch_artist_details difflib sp name) artists) with
  | inl e => (ev1, Uncaught e)
  | inr artist_details_results =>
      let valid_artists :=
        flat_map (fun result => match fst result with
                                | Some artist_data => [artist_data]
                                | None => []
                                end) artist_details_results in
      let all_logs := flat_map snd artist_details_results in
      let ev2 := (ev1 ++ map Print all_logs)%list in
      match valid_artists with
      | [] => ((ev2 ++ [Logging WARNING "No valid artists found on Spotify. Exiting."])%list,
               Returned)
      | _ =>
          let ev3 := (ev2 ++ [Logging INFO phase2_banner])%list in
          match gather (map (fun details =>
                               fetch_top_songs sp details remixes_allowed_genres)
                            valid_artists) with
          | inl e => (ev3, Uncaught e)
          | inr song_data_results =>
              let all_song_details := flat_map fst song_data_results in
              let all_logs := flat_map snd song_data_results in
              let ev4 := (ev3 ++ map Print all_logs)%list in
              match all_song_details with
              | [] =>
                  ((ev4 ++ [Logging WARNING
                              "No songs found for any of the artists. Exiting."])%list,
                   Returned)
              | _ =>
                  let song_ids := map sd_id all_song_details in
                  match playlist_phase sp username playlist_name song_ids ev4 with
                  | (inr _, ev5) => (ev5, Returned)
                  | (inl e, ev5) => (ev5, Uncaught e)
                  end
              end
          end
      end
  end.

(** lines 20-128 *)
Definition main (w : World) : list event * exit_status :=
  if length (argv w) <? 2 then
    ([Logging ERROR "Usage: python script_name.py <spotify_username>"], SysExit 1)
  else
    match coachella2026_txt w with
    | None =>
        ([Logging ERROR "Input file 'coachella2026.txt' not found. Please create it."],
         SysExit 1)
    | Some file =>
        let artists := map strip (filter (fun artist => nonempty (strip artist)) file) in
        let playlist_name := "Coachella 2026" in
        let username := nth 1 (argv w) "" in
        let client_id := CLIENT_ID w in
        let client_secret := CLIENT_SECRET w in
        if negb (truthy client_id) || negb (truthy client_secret) then
          ([Logging ERROR "CLIENT_ID and CLIENT_SECRET environment variables must be set."],
           SysExit 1)
        else
          let token := prompt_for_user_token w username in
          match token with
          | Some (String _ _ as token') =>
              let sp := Spotify_auth w token' in
              run_phases sp username playlist_name artists
          | _ =>
              ([Logging ERROR ("Cannot get token for " ++ username
                               ++ ". Check permissions or credentials.")], Returned)
          end
    end.

End Orchestrator.

(** ** The vocabulary of the specification *)

(** "isRemixOrEdit": the name contains "remix", or contains "edit" without
    containing "radio edit" or "album edit", all ignoring case. *)
Definition RemixOrEdit (name : string) : Prop :=
  ContainsNoCase "remix" name
  \/ (ContainsNoCase "edit" name
      /\ ~ ContainsNoCase "radio edit" name
      /\ ~ ContainsNoCase "album edit" name).

(** "accept a track iff allowRemixes OR NOT isRemixOrEdit" *)
Definition Accepted (allow_remixes : bool) (t : Track) : Prop :=
  allow_remixes = true \/ ~ RemixOrEdit (track_name t).

(** the test of line 235 *)
Definition accepts (allow_remixes : bool) (t : Track) : bool :=
  allow_remixes || negb (is_remix (track_name t)).

(** The tracks a scan looks at when it still needs [need] accepted tracks:
    everything up to and including the [need]-th accepted one. *)
Fixpoint examined (allow_remixes : bool) (need : nat) (ts : list Track) : list Track :=
  match need, ts with
  | O, _ => []
  | _, [] => []
  | S k, t :: rest =>
      t :: examined allow_remixes (if accepts allow_remixes t then k else S k) rest
  end.

(** the log line of one examined track *)
Definition verdict (allow_remixes : bool) (t : Track) : string :=
  if accepts allow_remixes t then added_msg t else skipped_msg t.

(** a client whose top-tracks endpoint answers [ts] for every artist *)
Definition top_tracks_client (ts : list Track) : Spotify :=
  {| search := fun _ => inr [];
     artist_top_tracks := fun _ => inr ts;
     user_playlist_create := fun _ _ => inr "playlist";
     user_playlist_add_tracks := fun _ _ _ => inr tt |}.

Definition song (name : string) : Track := {| track_name := name; track_id := "id:" ++ name |}.

(** The three match conditions of the resolver, for a lower-cased query. *)
Definition exact_match (normalized_query : string) (item : Item) : bool :=
  (lower (item_name item) =? normalized_query)%string.

Definition similar (ratio : string -> string -> Q) (normalized_query : string) (item : Item)
  : bool :=
  Qgt_bool (ratio normalized_query (lower (item_name item))) (90 # 100).

Definition the_prefix_match (normalized_query : string) (item : Item) : bool :=
  startswith "the " normalized_query
  && (lower (item_name item) =? slice_from 4 normalized_query)%string.

Definition matches (ratio : string -> string -> Q) (normalized_query : string) (item : Item)
  : bool :=
  exact_match normalized_query item
  || similar ratio normalized_query item
  || the_prefix_match normalized_query item.

(** the record and the log lines built from a matched candidate *)
Definition artist_of (item : Item) : ArtistData :=
  {| ad_name := item_name item; ad_id := item_id item; ad_genres := item_genres item |}.

Definition details_logs (artist_name : string) (item : Item) : list string :=
  ["--- Artist Details: " ++ artist_name ++ " ---";
   "  > Matched Spotify Name: " ++ item_name item;
   "  > ID: " ++ item_id item;
   "  > Genres: " ++ match item_genres item with
                     | [] => "None"
                     | _ => join ", " (item_genres item)
                     end].

(** a client whose search endpoint answers [items] for every query *)
Definition search_client (items : list Item) : Spotify :=
  {| search := fun _ => inr items;
     artist_top_tracks := fun _ => inr [];
     user_playlist_create := fun _ _ => inr "playlist";
     user_playlist_add_tracks := fun _ _ _ => inr tt |}.

Definition candidate (name : string) : Item :=
  {| item_name := name; item_id := "id:" ++ name; item_genres := [] |}.

(** a client whose two worker endpoints raise [e] *)
Definition failing_client (e : exn) : Spotify :=
  {| search := fun _ => inl e;
     artist_top_tracks := fun _ => inl e;
     user_playlist_create := fun _ _ => inr "playlist";
     user_playlist_add_tracks := fun _ _ _ => inr tt |}.

(** Consecutive slices of at most [size] elements; [fuel] bounds their
    number. *)
Fixpoint batches_from {A} (fuel size : nat) (xs : list A) : list (list A) :=
  match fuel with
  | O => []
  | S fuel' =>
      match xs with
      | [] => []
      | _ => firstn size xs :: batches_from fuel' size (skipn size xs)
      end
  end.

Definition batches {A} (size : nat) (xs : list A) : list (list A) :=
  batches_from (length xs) size xs.

(** One API call and one log line per batch, numbered from [number]. *)
Fixpoint batch_events (username playlist_id : string) (number : nat)
         (bs : list (list string)) : list event :=
  match bs with
  | [] => []
  | b :: rest =>
      PlaylistAddTracks username playlist_id b
      :: Logging INFO (added_batch_msg number (length b))
      :: batch_events username playlist_id (S number) rest
  end.

(** The artists phase 1 keeps: those whose worker returned a record, in
    input order. *)
Definition resolved (difflib : option (string -> string -> Q)) (sp : Spotify)
           (artists : list string) : list ArtistData :=
  flat_map (fun name => match fst (fetch_artist_details difflib sp name) with
                        | inr (Some artist) => [artist]
                        | _ => []
                        end) artists.

(** The songs selected for one artist, in the order accepted. *)
Definition selected (sp : Spotify) (artist : ArtistData) : list SongData :=
  match fst (fetch_top_songs sp artist remixes_allowed_genres) with
  | inr songs => songs
  | inl _ => []
  end.

(** events that touch no playlist *)
Definition quiet (ev : event) : bool :=
  match ev with
  | Logging _ _ | Print _ => true
  | PlaylistCreate _ _ | PlaylistAddTracks _ _ _ => false
  end.

(** a run with one artist, found by exact name, with ten plain top tracks *)
Definition daft_punk_world : World :=
  {| argv := ["festival.py"; "listener"];
     coachella2026_txt := Some ["Daft Punk" ++ nl];
     CLIENT_ID := Some "client-id";
     CLIENT_SECRET := Some "client-secret";
     prompt_for_user_token := fun _ => Some "token";
     Spotify_auth := fun _ =>
       {| search := fun _ => inr [{| item_name := "Daft Punk"; item_id := "dp";
                                     item_genres := ["french house"] |}];
          artist_top_tracks := fun _ =>
            inr (map song ["One"; "Two"; "Three"; "Four"; "Five";
                           "Six"; "Seven"; "Eight"; "Nine"; "Ten"]);
          user_playlist_create := fun _ _ => inr "playlist-1";
          user_playlist_add_tracks := fun _ _ _ => inr tt |} |}.

(** The same, against a client that may reject a batch: the calls stop at
    the first rejected batch, whose exception is the outcome. *)
Fixpoint batch_run (sp : Spotify) (username playlist_id : string) (number : nat)
         (bs : list (list string)) : (exn + unit) * list event :=
  match bs with
  | [] => (inr tt, [])
  | b :: rest =>
      match user_playlist_add_tracks sp username playlist_id b with
      | inl e => (inl e, [PlaylistAddTracks username playlist_id b])
      | inr _ =>
          let (outcome, evs) := batch_run sp username playlist_id (S number) rest in
          (outcome,
           PlaylistAddTracks username playlist_id b
           :: Logging INFO (added_batch_msg number (length b)) :: evs)
      end
  end.

(** a client whose add-tracks endpoint rejects every batch *)
Definition rejecting_client : Spotify :=
  {| search := fun _ => inr [];
     artist_top_tracks := fun _ => inr [];
     user_playlist_create := fun _ _ => inr "playlist";
     user_playlist_add_tracks := fun _ _ _ => inl (SpotifyException "http status: 403") |}.

(** 150 track ids *)
Definition ids150 : list string := map (fun n => "track" ++ of_nat n) (seq 1 150).

(** a stand-in ratio function that finds nothing similar *)
Definition never_similar : string -> string -> Q := fun _ _ => 0%Q.

(** sample inputs *)
Definition six_then_more : list Track :=
  ([song "One"; song "Two (Remix)"; song "Three"; song "Four"; song "Five"]
   ++ song "Six" :: [song "Seven"; song "Eight"; song "Nine"; song "Ten"])%list.

Definition four_songs : list Track :=
  [song "Song (Radio Edit)"; song "Song (Edit)"; song "Song (Album Edit)"; song "Song Remix"].

Definition rock_artist : ArtistData :=
  {| ad_name := "Band"; ad_id := "artist-1"; ad_genres := ["indie rock"] |}.

Definition house_artist : ArtistData :=
  {| ad_name := "Duo"; ad_id := "artist-2"; ad_genres := ["french touch"; "deep house"] |}.

(** ** Vocabulary for the orchestration properties *)


(** the batches handed to the add-tracks endpoint, in order *)
Definition sent_batches (evs : list event) : list (list string) :=
  flat_map (fun ev => match ev with
                      | PlaylistAddTracks _ _ batch => [batch]
                      | _ => []
                      end) evs.

Definition is_create (ev : event) : bool :=
  match ev with PlaylistCreate _ _ => true | _ => false end.

Definition is_add_tracks (ev : event) : bool :=
  match ev with PlaylistAddTracks _ _ _ => true | _ => false end.

(** the messages of lines 118, 122, 125 and 128 *)
Definition created_msg (playlist_name : string) : string :=
  "Successfully created playlist: " ++ playlist_name.

Definition success_msg (playlist_name : string) (count : nat) : string :=
  nl ++ "Playlist '" ++ playlist_name ++ "' was created successfully with "
  ++ of_nat count ++ " songs 🎉".

Definition playlist_error_msg (e : exn) : string :=
  if is_SpotifyException e
  then "Spotify API Error during playlist creation or track addition: " ++ exn_str e
  else "An unexpected error occurred: " ++ exn_str e.

(** the messages of lines 86 and 108 *)
Definition no_valid_artists_msg : string := "No valid artists found on Spotify. Exiting.".
Definition no_songs_msg : string := "No songs found for any of the artists. Exiting.".

(** a client whose playlist-creation endpoint raises [e] *)
Definition create_failing_client (e : exn) : Spotify :=
  {| search := fun _ => inr [];
     artist_top_tracks := fun _ => inr [];
     user_playlist_create := fun _ _ => inl e;
     user_playlist_add_tracks := fun _ _ _ => inr tt |}.

(** a client that accepts batches of 100 ids and rejects shorter ones *)
Definition short_batch_rejecting_client : Spotify :=
  {| search := fun _ => inr [];
     artist_top_tracks := fun _ => inr [];
     user_playlist_create := fun _ _ => inr "playlist";
     user_playlist_add_tracks := fun _ _ batch =>
       if length batch <? 100 then inl (OtherException "connection reset") else inr tt |}.

(** the log calls and API calls of a trace, without the printed lines *)
Definition control (evs : list event) : list event :=
  filter (fun ev => match ev with Print _ => false | _ => true end) evs.

(** the ids handed to the add-tracks endpoint, in order *)
Definition sent_ids (evs : list event) : list string := concat (sent_batches evs).

Definition is_print (ev : event) : bool :=
  match ev with Print _ => true | _ => false end.


(** [daft_punk_world] with another input file and another client *)
Definition world_with (file : list string) (sp : Spotify) : World :=
  {| argv := ["festival.py"; "listener"];
     coachella2026_txt := Some file;
     CLIENT_ID := Some "client-id";
     CLIENT_SECRET := Some "client-secret";
     prompt_for_user_token := fun _ => Some "token";
     Spotify_auth := fun _ => sp |}.

(** * Proofs *)

(** ** Strings *)

Lemma startswith_iff (p s : string) :
  startswith p s = true <-> exists rest, s = p ++ rest.
Proof.
  revert s; induction p as [|a p IH]; intros s; simpl.
  - split; [intros _; now exists s | reflexivity].
  - destruct s as [|b s].
    + split; [discriminate | intros [rest H]; discriminate].
    + rewrite andb_true_iff, Ascii.eqb_eq, IH. split.
      * intros [-> [rest ->]]. now exists rest.
      * intros [rest H]. injection H as -> ->. split; [reflexivity | now exists rest].
Qed.

Lemma contains_Substring (sub s : string) :
  contains sub s = true <-> Substring sub s.
Proof.
  split.
  - induction s as [|c s IH]; simpl.
    + rewrite orb_false_r. intros H. apply startswith_iff in H as [rest ->].
      now exists "", rest.
    + intros H. apply orb_true_iff in H as [H|H].
      * apply startswith_iff in H as [rest ->]. now exists "", rest.
      * destruct (IH H) as (pre & post & ->). now exists (String c pre), post.
  - intros (pre & post & ->). induction pre as [|c pre IH]; simpl.
    + assert (H : startswith sub (sub ++ post) = true)
        by (apply startswith_iff; now exists post).
      destruct (sub ++ post); simpl; rewrite H; reflexivity.
    + rewrite IH. apply orb_true_r.
Qed.

Lemma contains_not_Substring (sub s : string) :
  contains sub s = false <-> ~ Substring sub s.
Proof.
  rewrite <- contains_Substring. destruct (contains sub s); split; intros; congruence.
Qed.

(** ** Track Selector *)

Lemma is_remix_RemixOrEdit (name : string) :
  is_remix name = true <-> RemixOrEdit name.
Proof.
  unfold is_remix, RemixOrEdit, ContainsNoCase.
  rewrite orb_true_iff, !andb_true_iff, !negb_true_iff.
  rewrite !contains_Substring, !contains_not_Substring. tauto.
Qed.

Lemma accepts_Accepted (allow_remixes : bool) (t : Track) :
  accepts allow_remixes t = true <-> Accepted allow_remixes t.
Proof.
  unfold accepts, Accepted. rewrite orb_true_iff, negb_true_iff, <- is_remix_RemixOrEdit.
  destruct (is_remix (track_name t)); split; intros [H|H]; auto; try discriminate.
Qed.

Lemma examined_accepted_le (allow : bool) (ts : list Track) :
  forall need, length (filter (accepts allow) (examined allow need ts)) <= need.
Proof.
  induction ts as [|t rest IH]; intros [|k]; simpl; try lia.
  destruct (accepts allow t); simpl.
  - specialize (IH k). lia.
  - apply IH.
Qed.

Lemma select_loop_cons (allow : bool) (t : Track) (rest acc : list Track) (logs : list string) :
  select_loop allow (t :: rest) acc logs
  = let acc' := if accepts allow t then (acc ++ [t])%list else acc in
    let logs' := (logs ++ [verdict allow t])%list in
    if 5 <=? length acc' then (inr acc', logs') else select_loop allow rest acc' logs'.
Proof.
  unfold verdict, accepts. cbn [select_loop]. unfold Py.bind, Py.append, Py.ret.
  destruct (allow || negb (is_remix (track_name t))); cbv zeta;
    match goal with |- context [5 <=? ?n] => destruct (5 <=? n) end; reflexivity.
Qed.

(** The scan of lines 224-244, started with fewer than five tracks in
    hand: what it returns and what it logs. *)
Lemma select_loop_spec (allow : bool) (ts : list Track) :
  forall acc logs,
    length acc < 5 ->
    let seen := examined allow (5 - length acc) ts in
    select_loop allow ts acc logs
    = (inr (acc ++ filter (accepts allow) seen)%list, (logs ++ map (verdict allow) seen)%list).
Proof.
  induction ts as [|t rest IH]; intros acc logs Hlen; cbv zeta.
  - destruct (5 - length acc); simpl; now rewrite !app_nil_r.
  - rewrite select_loop_cons. cbv zeta.
    destruct (5 - length acc) as [|k] eqn:Hneed; [lia|].
    cbn [examined]. cbn [filter map].
    destruct (accepts allow t) eqn:Hacc.
    + rewrite length_app; cbn [length].
      destruct (5 <=? length acc + 1) eqn:Hfull.
      * apply Nat.leb_le in Hfull. assert (k = 0) by lia; subst k.
        destruct rest; reflexivity.
      * apply Nat.leb_gt in Hfull.
        rewrite IH by (rewrite length_app; simpl; lia).
        rewrite length_app; cbn [length].
        replace (5 - (length acc + 1)) with k by lia.
        now rewrite <- !app_assoc.
    + destruct (5 <=? length acc) eqn:Hfull; [apply Nat.leb_le in Hfull; lia|].
      rewrite IH by assumption. rewrite Hneed.
      now rewrite <- !app_assoc.
Qed.

(** [fetch_top_songs] on a non-empty response: the accepted tracks among
    those examined, and one log line per examined track. *)
Lemma fetch_top_songs_tracks (sp : Spotify) (artist : ArtistData) (remixes : list string)
      (all_tracks : list Track) :
  artist_top_tracks sp (ad_id artist) = inr all_tracks ->
  all_tracks <> [] ->
  let allow := allow_remixes_flag (ad_genres artist) remixes in
  let seen := examined allow 5 (firstn 10 all_tracks) in
  let chosen := filter (accepts allow) seen in
  fetch_top_songs sp artist remixes
  = (inr (map (mk_song (ad_name artist) (ad_id artist)) chosen),
     (top_songs_header (ad_name artist) (ad_id artist) :: remix_check_msg allow
        :: map (verdict allow) seen
        ++ [final_count_msg (ad_name artist) (length chosen)])%list).
Proof.
  intros Hcall Hne allow seen chosen.
  unfold fetch_top_songs, fetch_top_songs_try, Py.try_except, Py.bind, Py.call, Py.append.
  rewrite Hcall. destruct all_tracks as [|t0 ts0]; [congruence|].
  rewrite (select_loop_spec _ _ [] _) by (simpl; lia).
  cbn [length Nat.sub app]. fold allow. fold seen. fold chosen.
  assert (Hle : length chosen <= 5) by apply examined_accepted_le.
  rewrite firstn_all2 by assumption.
  unfold Py.ret. rewrite length_map. reflexivity.
Qed.

Lemma fetch_top_songs_empty (sp : Spotify) (artist : ArtistData) (remixes : list string) :
  artist_top_tracks sp (ad_id artist) = inr [] ->
  fetch_top_songs sp artist remixes
  = (inr [], [top_songs_header (ad_name artist) (ad_id artist);
              remix_check_msg (allow_remixes_flag (ad_genres artist) remixes);
              no_tracks_msg (ad_name artist)]).
Proof.
  intros Hcall.
  unfold fetch_top_songs, fetch_top_songs_try, Py.try_except, Py.bind, Py.call, Py.append.
  now rewrite Hcall.
Qed.

Lemma fetch_top_songs_raise (sp : Spotify) (artist : ArtistData) (remixes : list string)
      (e : exn) :
  artist_top_tracks sp (ad_id artist) = inl e ->
  fetch_top_songs sp artist remixes
  = (inr [], [top_songs_header (ad_name artist) (ad_id artist);
              remix_check_msg (allow_remixes_flag (ad_genres artist) remixes);
              tracks_error_msg (ad_name artist) e]).
Proof.
  intros Hcall.
  unfold fetch_top_songs, fetch_top_songs_try, fetch_top_songs_except,
    Py.try_except, Py.bind, Py.call, Py.append.
  now rewrite Hcall.
Qed.

(** Whatever the client does, the worker returns at most five songs. *)
Lemma fetch_top_songs_returns (sp : Spotify) (artist : ArtistData) (remixes : list string) :
  exists songs, fst (fetch_top_songs sp artist remixes) = inr songs /\ length songs <= 5.
Proof.
  destruct (artist_top_tracks sp (ad_id artist)) as [e|[|t ts]] eqn:Hcall.
  - rewrite (fetch_top_songs_raise _ _ _ _ Hcall). exists []. simpl. split; [reflexivity|lia].
  - rewrite (fetch_top_songs_empty _ _ _ Hcall). exists []. simpl. split; [reflexivity|lia].
  - rewrite (fetch_top_songs_tracks _ _ _ _ Hcall) by discriminate.
    eexists; split; [reflexivity|]. rewrite length_map. apply examined_accepted_le.
Qed.

(** C1 -- Track acceptance rule.  The test of lines 229-233 holds of a
    track name exactly when the name contains "remix", or contains "edit"
    but neither "radio edit" nor "album edit", ignoring case; the test of
    line 235 accepts a track exactly when remixes are allowed or the name
    is not a remix or edit.  On a non-empty response [fetch_top_songs]
    returns the accepted ones among the tracks it examines and logs ADDED
    or SKIPPED for each of them accordingly.  Without remix allowance
    "Song (Radio Edit)" and "Song (Album Edit)" are kept while
    "Song (Edit)" and "Song Remix" are skipped; with remix allowance every
    track is accepted. *)
Theorem track_acceptance_rule :
  (forall name, is_remix name = true <-> RemixOrEdit name)
  /\ (forall allow t, accepts allow t = true <-> Accepted allow t)
  /\ (forall sp artist remixes all_tracks,
        artist_top_tracks sp (ad_id artist) = inr all_tracks ->
        all_tracks <> [] ->
        let allow := allow_remixes_flag (ad_genres artist) remixes in
        let seen := examined allow 5 (firstn 10 all_tracks) in
        let chosen := filter (accepts allow) seen in
        fetch_top_songs sp artist remixes
        = (inr (map (mk_song (ad_name artist) (ad_id artist)) chosen),
           (top_songs_header (ad_name artist) (ad_id artist) :: remix_check_msg allow
              :: map (verdict allow) seen
              ++ [final_count_msg (ad_name artist) (length chosen)])%list))
  /\ fst (fetch_top_songs (top_tracks_client four_songs) rock_artist remixes_allowed_genres)
     = inr (map (mk_song "Band" "artist-1") [song "Song (Radio Edit)"; song "Song (Album Edit)"])
  /\ fst (fetch_top_songs (top_tracks_client four_songs) house_artist remixes_allowed_genres)
     = inr (map (mk_song "Duo" "artist-2") four_songs)
  /\ (forall t, accepts true t = true).
Proof.
  split; [exact is_remix_RemixOrEdit|].
  split; [exact accepts_Accepted|].
  split; [exact fetch_top_songs_tracks|].
  repeat split; vm_compute; reflexivity.
Qed.

Lemma track_acceptance_rule_witness :
  artist_top_tracks (top_tracks_client four_songs) (ad_id rock_artist) = inr four_songs
  /\ four_songs <> []
  /\ fetch_top_songs (top_tracks_client four_songs) rock_artist remixes_allowed_genres
     = (inr (map (mk_song "Band" "artist-1")
                 (filter (accepts false) (examined false 5 (firstn 10 four_songs)))),
        (top_songs_header "Band" "artist-1" :: remix_check_msg false
           :: map (verdict false) (examined false 5 (firstn 10 four_songs))
           ++ [final_count_msg "Band"
                 (length (filter (accepts false) (examined false 5 (firstn 10 four_songs))))])%list).
Proof.
  split; [reflexivity|]. split; [discriminate|].
  apply (proj1 (proj2 (proj2 track_acceptance_rule))
           (top_tracks_client four_songs) rock_artist remixes_allowed_genres four_songs).
  - reflexivity.
  - discriminate.
Defined.

Lemma allow_remixes_flag_iff (genres remixes : list string) :
  allow_remixes_flag genres remixes = true
  <-> exists genre token, In genre genres /\ In token remixes /\ Substring token genre.
Proof.
  unfold allow_remixes_flag. rewrite existsb_exists. split.
  - intros (genre & Hg & H). apply existsb_exists in H as (token & Ht & H).
    apply contains_Substring in H. now exists genre, token.
  - intros (genre & token & Hg & Ht & H). exists genre. split; [assumption|].
    apply existsb_exists. exists token. split; [assumption|]. now apply contains_Substring.
Qed.

(** The second log line always reports the flag, whatever the client does. *)
Lemma fetch_top_songs_logs_flag (sp : Spotify) (artist : ArtistData) (remixes : list string) :
  nth_error (snd (fetch_top_songs sp artist remixes)) 1
  = Some (remix_check_msg (allow_remixes_flag (ad_genres artist) remixes)).
Proof.
  destruct (artist_top_tracks sp (ad_id artist)) as [e|[|t ts]] eqn:Hcall.
  - now rewrite (fetch_top_songs_raise _ _ _ _ Hcall).
  - now rewrite (fetch_top_songs_empty _ _ _ Hcall).
  - now rewrite (fetch_top_songs_tracks _ _ _ _ Hcall) by discriminate.
Qed.

(** C5 -- Remix allowance.  With the eight tokens of line 61, the flag
    computed on line 209 is true exactly when some genre of the artist
    contains some token as a substring; it is the value [fetch_top_songs]
    reports in its second log line for every client, so it depends on the
    genre list and the token list only.  A genre such as "deep house"
    allows remixes although it equals no token. *)
Theorem allow_remixes_substring_rule :
  forall (sp : Spotify) (artist : ArtistData),
    let flag := allow_remixes_flag (ad_genres artist) remixes_allowed_genres in
    (flag = true
     <-> exists genre token,
           In genre (ad_genres artist)
           /\ In token ["house"; "dub"; "trance"; "breakbeat"; "bass"; "techno"; "edm"; "dance"]
           /\ Substring token genre)
    /\ nth_error (snd (fetch_top_songs sp artist remixes_allowed_genres)) 1
       = Some (remix_check_msg flag)
    /\ allow_remixes_flag ["french touch"; "deep house"] remixes_allowed_genres = true
    /\ allow_remixes_flag ["indie rock"; "hous"] remixes_allowed_genres = false.
Proof.
  intros sp artist flag. split; [apply allow_remixes_flag_iff|].
  split; [apply fetch_top_songs_logs_flag|].
  split; reflexivity.
Qed.

Lemma examined_zero (allow : bool) (ts : list Track) : examined allow 0 ts = [].
Proof. destruct ts; reflexivity. Qed.

Lemma examined_until_last (allow : bool) (last : Track) (rest : list Track) :
  accepts allow last = true ->
  forall pre need,
    length (filter (accepts allow) pre) = need ->
    examined allow (S need) (pre ++ last :: rest) = (pre ++ [last])%list.
Proof.
  intros Hlast. induction pre as [|t pre IH]; intros need Hcount.
  - simpl in Hcount; subst need. simpl. rewrite Hlast. now rewrite examined_zero.
  - cbn [app examined]. cbn [filter] in Hcount.
    destruct (accepts allow t).
    + destruct need as [|k]; [discriminate|]. injection Hcount as Hcount.
      now rewrite IH.
    + now rewrite IH.
Qed.

(** C6 -- Per-artist cap.  [fetch_top_songs] always returns, with at most
    five songs.  When the fifth accepted track sits among the first ten of
    the response, the result and the log are those of the tracks up to and
    including it: five songs, one ADDED or SKIPPED line per track up to
    that point, and nothing about the tracks behind it. *)
Theorem per_artist_cap :
  forall (sp : Spotify) (artist : ArtistData) (remixes : list string),
    (exists songs, fst (fetch_top_songs sp artist remixes) = inr songs /\ length songs <= 5)
    /\ (forall pre last rest,
          artist_top_tracks sp (ad_id artist) = inr (pre ++ last :: rest)%list ->
          length pre < 10 ->
          let allow := allow_remixes_flag (ad_genres artist) remixes in
          length (filter (accepts allow) pre) = 4 ->
          accepts allow last = true ->
          fetch_top_songs sp artist remixes
          = (inr (map (mk_song (ad_name artist) (ad_id artist))
                      (filter (accepts allow) pre ++ [last])),
             (top_songs_header (ad_name artist) (ad_id artist) :: remix_check_msg allow
                :: map (verdict allow) (pre ++ [last])
                ++ [final_count_msg (ad_name artist) 5])%list)).
Proof.
  intros sp artist remixes. split; [apply fetch_top_songs_returns|].
  intros pre last rest Hcall Hpre allow Hcount Hlast.
  rewrite (fetch_top_songs_tracks _ _ _ _ Hcall) by (destruct pre; discriminate).
  fold allow.
  assert (Hten : firstn 10 (pre ++ last :: rest)
                 = (pre ++ last :: firstn (9 - length pre) rest)%list).
  { rewrite firstn_app. rewrite firstn_all2 by lia.
    replace (10 - length pre) with (S (9 - length pre)) by lia. reflexivity. }
  rewrite Hten, (examined_until_last allow last _ Hlast pre 4 Hcount).
  rewrite filter_app. cbn [filter]. rewrite Hlast.
  rewrite length_app, Hcount. reflexivity.
Qed.

Lemma per_artist_cap_witness :
  let pre := [song "One"; song "Two (Remix)"; song "Three"; song "Four"; song "Five"] in
  let rest := [song "Seven"; song "Eight"; song "Nine"; song "Ten"] in
  artist_top_tracks (top_tracks_client six_then_more) (ad_id rock_artist)
  = inr (pre ++ song "Six" :: rest)%list
  /\ length pre < 10
  /\ length (filter (accepts false) pre) = 4
  /\ accepts false (song "Six") = true
  /\ fetch_top_songs (top_tracks_client six_then_more) rock_artist remixes_allowed_genres
     = (inr (map (mk_song "Band" "artist-1")
                 [song "One"; song "Three"; song "Four"; song "Five"; song "Six"]),
        [top_songs_header "Band" "artist-1"; remix_check_msg false;
         added_msg (song "One"); skipped_msg (song "Two (Remix)"); added_msg (song "Three");
         added_msg (song "Four"); added_msg (song "Five"); added_msg (song "Six");
         final_count_msg "Band" 5]).
Proof.
  cbv zeta. split; [reflexivity|]. split; [simpl; lia|]. split; [reflexivity|].
  split; [reflexivity|].
  apply (proj2 (per_artist_cap (top_tracks_client six_then_more) rock_artist
                               remixes_allowed_genres)
           [song "One"; song "Two (Remix)"; song "Three"; song "Four"; song "Five"]
           (song "Six")
           [song "Seven"; song "Eight"; song "Nine"; song "Ten"]).
  - reflexivity.
  - simpl; lia.
  - reflexivity.
  - reflexivity.
Defined.

(** ** Artist Resolver *)

(** With [difflib] bound, the scan returns the first candidate that meets
    one of the three conditions, and logs nothing. *)
Lemma match_loop_bound (ratio : string -> string -> Q) (q : string) (items : list Item)
      (logs : list string) :
  match_loop (Some ratio) q items logs = (inr (find (matches ratio q) items), logs).
Proof.
  induction items as [|item rest IH]; [reflexivity|].
  cbn [match_loop find]. unfold matches, exact_match, similar, the_prefix_match.
  destruct (lower (item_name item) =? q)%string; [reflexivity|].
  unfold Py.bind, lookup_difflib, Py.ret. cbn [orb].
  destruct (Qgt_bool (ratio q (lower (item_name item))) (90 # 100)); [reflexivity|].
  cbn [orb].
  destruct (startswith "the " q && (lower (item_name item) =? slice_from 4 q)%string);
    [reflexivity|exact IH].
Qed.

(** Without a binding, the scan gets past the exact comparison of the
    first candidate only by raising [NameError]. *)
Lemma match_loop_unbound (q : string) (item : Item) (rest : list Item) (logs : list string) :
  match_loop None q (item :: rest) logs
  = if exact_match q item then (inr (Some item), logs) else (inl (NameError "difflib"), logs).
Proof.
  cbn [match_loop]. unfold exact_match.
  destruct (lower (item_name item) =? q)%string; reflexivity.
Qed.

Lemma fetch_artist_details_search_raise (difflib : option (string -> string -> Q))
      (sp : Spotify) (name : string) (e : exn) :
  search sp name = inl e ->
  fetch_artist_details difflib sp name = (inr None, [details_error_msg name e]).
Proof.
  intros Hcall. unfold fetch_artist_details, fetch_artist_details_try,
    Py.try_except, Py.bind, Py.call.
  now rewrite Hcall.
Qed.

Lemma fetch_artist_details_no_items (difflib : option (string -> string -> Q))
      (sp : Spotify) (name : string) :
  search sp name = inr [] ->
  fetch_artist_details difflib sp name = (inr None, [not_found_msg name]).
Proof.
  intros Hcall. unfold fetch_artist_details, fetch_artist_details_try,
    Py.try_except, Py.bind, Py.call.
  now rewrite Hcall.
Qed.

Lemma fetch_artist_details_bound (ratio : string -> string -> Q) (sp : Spotify)
      (name : string) (top : Item) (rest : list Item) :
  search sp name = inr (top :: rest) ->
  fetch_artist_details (Some ratio) sp name
  = match find (matches ratio (lower name)) (top :: rest) with
    | Some best => (inr (Some (artist_of best)), details_logs name best)
    | None => (inr None, [no_close_match_msg name (item_name top)])
    end.
Proof.
  intros Hcall. unfold fetch_artist_details, fetch_artist_details_try,
    Py.try_except, Py.bind, Py.call.
  rewrite Hcall, match_loop_bound.
  destruct (find (matches ratio (lower name)) (top :: rest)); reflexivity.
Qed.

Lemma fetch_artist_details_unbound (sp : Spotify) (name : string) (top : Item)
      (rest : list Item) :
  search sp name = inr (top :: rest) ->
  fetch_artist_details None sp name
  = if exact_match (lower name) top
    then (inr (Some (artist_of top)), details_logs name top)
    else (inr None, [details_error_msg name (NameError "difflib")]).
Proof.
  intros Hcall. unfold fetch_artist_details, fetch_artist_details_try,
    Py.try_except, Py.bind, Py.call.
  rewrite Hcall, match_loop_unbound.
  destruct (exact_match (lower name) top); reflexivity.
Qed.

Lemma similar_iff (ratio : string -> string -> Q) (q : string) (item : Item) :
  similar ratio q item = true <-> (90 # 100 < ratio q (lower (item_name item)))%Q.
Proof.
  unfold similar, Qgt_bool. rewrite negb_true_iff.
  destruct (Qle_bool (ratio q (lower (item_name item))) (90 # 100)) eqn:H.
  - apply Qle_bool_iff in H. split; [discriminate|].
    intros Hlt. exfalso. exact (Qlt_not_le _ _ Hlt H).
  - split; [|reflexivity]. intros _. apply Qnot_le_lt. intros Hle.
    apply Qle_bool_iff in Hle. congruence.
Qed.

(** With [difflib] bound: a candidate reached without an earlier match,
    which is neither an exact nor a "the "-prefix match, is selected
    exactly when its ratio exceeds 0.90. *)
Lemma similarity_threshold_bound (ratio : string -> string -> Q) (q : string)
      (pre : list Item) (item : Item) (rest : list Item) (logs : list string) :
  find (matches ratio q) pre = None ->
  exact_match q item = false ->
  the_prefix_match q item = false ->
  (fst (match_loop (Some ratio) q (pre ++ item :: rest) logs) = inr (Some item)
   <-> (90 # 100 < ratio q (lower (item_name item)))%Q).
Proof.
  intros Hpre Hexact Hthe. rewrite match_loop_bound, <- similar_iff. cbn [fst].
  assert (Hfind : find (matches ratio q) (pre ++ item :: rest)
                  = if matches ratio q item then Some item else find (matches ratio q) rest).
  { clear Hexact Hthe. induction pre as [|p pre IH]; [reflexivity|].
    cbn [app find] in *. destruct (matches ratio q p); [discriminate|]. now apply IH. }
  rewrite Hfind. unfold matches at 1. rewrite Hexact, Hthe, orb_false_r. cbn [orb].
  destruct (similar ratio q item) eqn:Hsim.
  - split; reflexivity.
  - split; [|discriminate]. intros H. injection H as H.
    apply find_some in H as [_ H]. unfold matches in H.
    rewrite Hexact, Hthe, Hsim in H. discriminate.
Qed.

(** With [difflib] bound: the "the "-prefix rule selects a candidate
    reached without an earlier match whose lower-cased name is the query
    without its prefix. *)
Lemma the_prefix_rule_bound (ratio : string -> string -> Q) (q : string)
      (pre : list Item) (item : Item) (rest : list Item) (logs : list string) :
  find (matches ratio q) pre = None ->
  the_prefix_match q item = true ->
  match_loop (Some ratio) q (pre ++ item :: rest) logs = (inr (Some item), logs).
Proof.
  intros Hpre Hthe. rewrite match_loop_bound. f_equal. f_equal.
  induction pre as [|p pre IH].
  - cbn [app find]. unfold matches. now rewrite Hthe, orb_true_r.
  - cbn [app find] in *. destruct (matches ratio q p); [discriminate|]. now apply IH.
Qed.


(** C2 -- Resolver scan order, at the module as written.  For the query
    "abc" and the candidates "xyz", "abc" the scan should select a
    candidate (with [difflib] bound it does, whatever the ratio function:
    the first one meeting a condition).  The module never binds
    [difflib], so the first candidate that is not an exact match raises
    [NameError] on line 160 and the worker returns no artist with an
    [ERROR] line. *)
Theorem scan_order_at_module :
  let sp := search_client [candidate "xyz"; candidate "abc"] in
  fetch_artist_details module_difflib sp "abc"
  = (inr None,
     ["[ERROR] Fetching details for 'abc' failed: name 'difflib' is not defined. Skipping."])
  /\ (forall ratio,
        fst (fetch_artist_details (Some ratio) sp "abc")
        = inr (option_map artist_of
                 (find (matches ratio "abc") [candidate "xyz"; candidate "abc"]))
        /\ find (matches ratio "abc") [candidate "xyz"; candidate "abc"] <> None).
Proof.
  cbv zeta. split; [reflexivity|]. intros ratio. split.
  - rewrite (fetch_artist_details_bound ratio _ "abc" (candidate "xyz") [candidate "abc"])
      by reflexivity.
    destruct (find _ _); reflexivity.
  - cbn [find]. destruct (matches ratio "abc" (candidate "xyz")); [discriminate|].
    unfold matches. replace (exact_match "abc" (candidate "abc")) with true by reflexivity.
    discriminate.
Qed.

(** C3 -- Similarity threshold, at the module as written.  The query
    "abcdefghijk" against the single candidate "abcdefghijkl" shares an
    eleven-character block, a ratio of 22/23; with [difflib] bound the
    candidate is selected exactly when the ratio exceeds 0.90.  The module
    never binds [difflib], so line 160 raises [NameError] and the worker
    returns no artist with an [ERROR] line: the similarity rule never
    matches. *)
Theorem similarity_rule_at_module :
  let sp := search_client [candidate "abcdefghijkl"] in
  fetch_artist_details module_difflib sp "abcdefghijk"
  = (inr None,
     ["[ERROR] Fetching details for 'abcdefghijk' failed: name 'difflib' is not defined. Skipping."])
  /\ (forall ratio,
        fst (fetch_artist_details (Some ratio) sp "abcdefghijk")
        = inr (if Qgt_bool (ratio "abcdefghijk" "abcdefghijkl") (90 # 100)
               then Some (artist_of (candidate "abcdefghijkl"))
               else None)).
Proof.
  cbv zeta. split; [reflexivity|]. intros ratio.
  rewrite (fetch_artist_details_bound ratio _ "abcdefghijk" (candidate "abcdefghijkl") [])
    by reflexivity.
  cbn [find]. unfold matches, similar.
  replace (exact_match (lower "abcdefghijk") (candidate "abcdefghijkl")) with false
    by reflexivity.
  replace (the_prefix_match (lower "abcdefghijk") (candidate "abcdefghijkl")) with false
    by reflexivity.
  rewrite orb_false_r. cbn [orb].
  replace (lower "abcdefghijk") with "abcdefghijk" by reflexivity.
  replace (lower (item_name (candidate "abcdefghijkl"))) with "abcdefghijkl" by reflexivity.
  destruct (Qgt_bool _ _); reflexivity.
Qed.

(** C4 -- "The "-prefix rule, at the module as written.  The query
    "The xx" against the single candidate "xx" should select it (with
    [difflib] bound it does, whatever the ratio function).  The module
    never binds [difflib], so line 160 raises [NameError] before line 166
    is reached and the worker returns no artist with an [ERROR] line. *)
Theorem the_prefix_rule_at_module :
  let sp := search_client [candidate "xx"] in
  fetch_artist_details module_difflib sp "The xx"
  = (inr None,
     ["[ERROR] Fetching details for 'The xx' failed: name 'difflib' is not defined. Skipping."])
  /\ the_prefix_match (lower "The xx") (candidate "xx") = true
  /\ (forall ratio,
        fetch_artist_details (Some ratio) sp "The xx"
        = (inr (Some (artist_of (candidate "xx"))), details_logs "The xx" (candidate "xx"))).
Proof.
  cbv zeta. split; [reflexivity|]. split; [reflexivity|]. intros ratio.
  rewrite (fetch_artist_details_bound ratio _ "The xx" (candidate "xx") []) by reflexivity.
  cbn [find]. unfold matches.
  replace (the_prefix_match (lower "The xx") (candidate "xx")) with true by reflexivity.
  now rewrite orb_true_r.
Qed.

(** ** Error containment *)

Lemma fetch_artist_details_returns (difflib : option (string -> string -> Q))
      (sp : Spotify) (name : string) :
  exists result logs, fetch_artist_details difflib sp name = (inr result, logs).
Proof.
  destruct (search sp name) as [e|[|top rest]] eqn:Hcall.
  - rewrite (fetch_artist_details_search_raise _ _ _ _ Hcall). eauto.
  - rewrite (fetch_artist_details_no_items _ _ _ Hcall). eauto.
  - destruct difflib as [ratio|].
    + rewrite (fetch_artist_details_bound _ _ _ _ _ Hcall). destruct (find _ _); eauto.
    + rewrite (fetch_artist_details_unbound _ _ _ _ Hcall). destruct (exact_match _ _); eauto.
Qed.

(** C9 -- Worker error containment.  When the search call raises,
    [fetch_artist_details] returns no artist and its log is one line that
    starts with "[ERROR]"; when the top-tracks call raises,
    [fetch_top_songs] returns the empty list and its log ends with a line
    that starts with "[ERROR]".  Both workers return a result for every
    client, query and artist: no exception leaves them. *)
Theorem worker_error_containment :
  forall (difflib : option (string -> string -> Q)) (sp : Spotify)
         (name : string) (artist : ArtistData) (remixes : list string),
    (forall e, search sp name = inl e ->
               fetch_artist_details difflib sp name = (inr None, [details_error_msg name e])
               /\ startswith "[ERROR]" (details_error_msg name e) = true)
    /\ (forall e, artist_top_tracks sp (ad_id artist) = inl e ->
                  fetch_top_songs sp artist remixes
                  = (inr [], [top_songs_header (ad_name artist) (ad_id artist);
                              remix_check_msg (allow_remixes_flag (ad_genres artist) remixes);
                              tracks_error_msg (ad_name artist) e])
                  /\ startswith "[ERROR]" (tracks_error_msg (ad_name artist) e) = true)
    /\ (exists result logs, fetch_artist_details difflib sp name = (inr result, logs))
    /\ (exists songs logs, fetch_top_songs sp artist remixes = (inr songs, logs)).
Proof.
  intros difflib sp name artist remixes. repeat split.
  - now apply fetch_artist_details_search_raise.
  - now apply fetch_top_songs_raise.
  - unfold tracks_error_msg. destruct (is_SpotifyException e); reflexivity.
  - apply fetch_artist_details_returns.
  - destruct (fetch_top_songs_returns sp artist remixes) as (songs & H & _).
    destruct (fetch_top_songs sp artist remixes) as [r logs]. simpl in H. subst r. eauto.
Qed.

Lemma worker_error_containment_witness :
  let sp := failing_client (SpotifyException "http status: 429") in
  search sp "Daft Punk" = inl (SpotifyException "http status: 429")
  /\ artist_top_tracks sp (ad_id rock_artist) = inl (SpotifyException "http status: 429")
  /\ fetch_artist_details module_difflib sp "Daft Punk"
     = (inr None,
        ["[ERROR] Fetching details for 'Daft Punk' failed: http status: 429. Skipping."])
  /\ fetch_top_songs sp rock_artist remixes_allowed_genres
     = (inr [],
        [top_songs_header "Band" "artist-1"; remix_check_msg false;
         "[ERROR] Spotify API Error fetching tracks for Band: http status: 429. Skipping."]).
Proof.
  cbv zeta.
  pose proof (worker_error_containment module_difflib
                (failing_client (SpotifyException "http status: 429"))
                "Daft Punk" rock_artist remixes_allowed_genres) as (H1 & H2 & _).
  split; [reflexivity|]. split; [reflexivity|]. split.
  - apply (proj1 (H1 (SpotifyException "http status: 429") eq_refl)).
  - apply (proj1 (H2 (SpotifyException "http status: 429") eq_refl)).
Defined.

(** ** The no-match diagnostic *)

(** C10 -- Safety of the no-match diagnostic.  For every binding of
    [difflib], client and query, [fetch_artist_details] returns a result.
    An exception inside its [try] is either the one raised by the search
    call or the [NameError] of an unbound [difflib]; the read [items[0]] of
    line 172 never raises.  When the scan over a non-empty candidate list
    ends without a match, that read yields the first candidate and the
    warning names it. *)
Theorem no_match_diagnostic_in_bounds :
  forall (difflib : option (string -> string -> Q)) (sp : Spotify) (name : string),
    (exists result logs, fetch_artist_details difflib sp name = (inr result, logs))
    /\ (forall logs e,
          fst (fetch_artist_details_try difflib sp name logs) = inl e ->
          search sp name = inl e \/ (difflib = None /\ e = NameError "difflib"))
    /\ (forall items logs logs',
          search sp name = inr items ->
          items <> [] ->
          match_loop difflib (lower name) items logs = (inr None, logs') ->
          exists top,
            nth_error items 0 = Some top
            /\ fetch_artist_details_try difflib sp name logs
               = (inr None, (logs' ++ [no_close_match_msg name (item_name top)])%list)).
Proof.
  intros difflib sp name. split; [apply fetch_artist_details_returns|]. split.
  - intros logs e. unfold fetch_artist_details_try, Py.bind, Py.call.
    destruct (search sp name) as [e'|[|top rest]] eqn:Hcall.
    + cbn [fst]. intros H. injection H as ->. now left.
    + cbn. discriminate.
    + destruct difflib as [ratio|].
      * rewrite match_loop_bound. destruct (find _ _); cbn; discriminate.
      * rewrite match_loop_unbound. destruct (exact_match _ _); cbn; [discriminate|].
        intros H. injection H as <-. right. split; reflexivity.
  - intros items logs logs' Hcall Hne Hloop.
    destruct items as [|top rest]; [congruence|]. exists top. split; [reflexivity|].
    unfold fetch_artist_details_try, Py.bind, Py.call. rewrite Hcall, Hloop. reflexivity.
Qed.

Lemma no_match_diagnostic_in_bounds_witness :
  (fst (fetch_artist_details_try module_difflib (search_client [candidate "xyz"]) "abc" [])
   = inl (NameError "difflib")
   /\ (search (search_client [candidate "xyz"]) "abc" = inl (NameError "difflib")
       \/ (module_difflib = None /\ NameError "difflib" = NameError "difflib")))
  /\ (search (search_client [candidate "xyz"]) "abc" = inr [candidate "xyz"]
      /\ [candidate "xyz"] <> []
      /\ match_loop (Some never_similar) (lower "abc") [candidate "xyz"] [] = (inr None, [])
      /\ exists top,
           nth_error [candidate "xyz"] 0 = Some top
           /\ fetch_artist_details_try (Some never_similar) (search_client [candidate "xyz"])
                                       "abc" []
              = (inr None, ([] ++ [no_close_match_msg "abc" (item_name top)])%list)).
Proof.
  split.
  - split; [reflexivity|].
    apply (proj1 (proj2 (no_match_diagnostic_in_bounds
                           module_difflib (search_client [candidate "xyz"]) "abc"))
             [] (NameError "difflib")).
    reflexivity.
  - split; [reflexivity|]. split; [discriminate|]. split; [reflexivity|].
    apply (proj2 (proj2 (no_match_diagnostic_in_bounds
                           (Some never_similar) (search_client [candidate "xyz"]) "abc"))
             [candidate "xyz"] [] []).
    + reflexivity.
    + discriminate.
    + reflexivity.
Defined.

(** ** Batch add *)

Section Batches.

Context {A : Type}.

Lemma batches_from_concat (size : nat) :
  0 < size ->
  forall fuel (xs : list A), length xs <= fuel -> concat (batches_from fuel size xs) = xs.
Proof.
  intros Hsize. induction fuel as [|fuel IH]; intros xs Hlen.
  - destruct xs; [reflexivity|simpl in Hlen; lia].
  - destruct xs as [|x xs']; [reflexivity|].
    cbn [batches_from concat]. rewrite IH.
    + apply firstn_skipn.
    + rewrite length_skipn. cbn [length] in *. lia.
Qed.

Lemma batches_from_sizes (size : nat) :
  0 < size ->
  forall fuel (xs : list A),
    Forall (fun b => 1 <= length b <= size) (batches_from fuel size xs).
Proof.
  intros Hsize. induction fuel as [|fuel IH]; intros xs; [constructor|].
  destruct xs as [|x xs']; [constructor|].
  cbn [batches_from]. constructor; [|apply IH].
  rewrite length_firstn. cbn [length]. lia.
Qed.

Lemma batches_from_length (fuel : nat) :
  forall xs : list A,
    length xs <= fuel -> length (batches_from fuel 100 xs) = (length xs + 99) / 100.
Proof.
  induction fuel as [|fuel IH]; intros xs Hlen.
  - destruct xs; [reflexivity|simpl in Hlen; lia].
  - destruct xs as [|x xs']; [reflexivity|].
    cbn [batches_from length]. rewrite IH by (rewrite length_skipn; cbn [length] in *; lia).
    rewrite length_skipn. cbn [length]. set (n := S (length xs')).
    assert (Hn : 1 <= n) by (unfold n; lia).
    destruct (Nat.lt_ge_cases n 100) as [Hsmall|Hbig].
    + replace (n - 100) with 0 by lia. cbn [Nat.add].
      rewrite (Nat.div_small 99 100) by lia.
      apply Nat.div_unique with (r := n - 1); lia.
    + replace (n + 99) with ((n - 100 + 99) + 1 * 100) by lia.
      rewrite Nat.div_add by lia. lia.
Qed.

Lemma batches_from_nth (size : nat) :
  0 < size ->
  forall fuel (xs : list A) k,
    k < length (batches_from fuel size xs) ->
    nth k (batches_from fuel size xs) [] = firstn size (skipn (size * k) xs).
Proof.
  intros Hsize. induction fuel as [|fuel IH]; intros xs k Hk.
  - simpl in Hk; lia.
  - destruct xs as [|x xs']; [simpl in Hk; lia|].
    cbn [batches_from] in *. destruct k as [|k].
    + rewrite Nat.mul_0_r. reflexivity.
    + cbn [nth]. cbn [length] in Hk. rewrite IH by lia.
      rewrite skipn_skipn. f_equal. f_equal. lia.
Qed.

End Batches.

Lemma range_from_batch_run (ids : list string) (sp : Spotify) (u p : string) :
  forall fuel k logs,
    PyList.for_each (PyList.range_from fuel (k * 100) (length ids) 100)
      (fun i =>
         let batch := PyList.slice ids i (i + 100) in
         (Py.append (PlaylistAddTracks u p batch) ;;
          Py.call (user_playlist_add_tracks sp u p batch) ;;
          Py.append (Logging INFO (added_batch_msg (i / 100 + 1) (length batch))))%py)
      logs
    = let run := batch_run sp u p (S k) (batches_from fuel 100 (skipn (k * 100) ids)) in
      (fst run, (logs ++ snd run)%list).
Proof.
  induction fuel as [|fuel IH]; intros k logs.
  - cbn. now rewrite app_nil_r.
  - cbn [PyList.range_from batches_from].
    destruct (k * 100 <? length ids) eqn:Hlt.
    + apply Nat.ltb_lt in Hlt.
      destruct (skipn (k * 100) ids) as [|x xs'] eqn:Hskip.
      { apply (f_equal (@length _)) in Hskip. rewrite length_skipn in Hskip.
        simpl in Hskip. lia. }
      rewrite <- Hskip. cbn [PyList.for_each batch_run]. cbv zeta.
      unfold PyList.slice. replace (k * 100 + 100 - k * 100) with 100 by lia.
      unfold Py.bind at 1 2 3, Py.append, Py.call.
      destruct (user_playlist_add_tracks sp u p (firstn 100 (skipn (k * 100) ids)))
        as [e|[]]; [reflexivity|].
      replace (k * 100 + 100) with (S k * 100) by lia.
      rewrite IH. rewrite Nat.div_mul by lia.
      replace (k + 1) with (S k) by lia.
      rewrite skipn_skipn. replace (100 + k * 100) with (S k * 100) by lia.
      cbv zeta. destruct (batch_run sp u p (S (S k)) _) as [outcome evs].
      cbn [fst snd]. now rewrite <- !app_assoc.
    + apply Nat.ltb_ge in Hlt.
      rewrite skipn_all2 by assumption. cbn. now rewrite app_nil_r.
Qed.

Lemma batch_run_accepted (sp : Spotify) (u p : string) :
  (forall batch, user_playlist_add_tracks sp u p batch = inr tt) ->
  forall bs number, batch_run sp u p number bs = (inr tt, batch_events u p number bs).
Proof.
  intros Hok. induction bs as [|b rest IH]; intros number; [reflexivity|].
  cbn [batch_run batch_events]. now rewrite Hok, IH.
Qed.

Lemma add_tracks_in_batches_run (sp : Spotify) (u p : string) (ids : list string)
      (logs : list event) :
  add_tracks_in_batches sp u p ids logs
  = (fst (batch_run sp u p 1 (batches 100 ids)),
     (logs ++ snd (batch_run sp u p 1 (batches 100 ids)))%list).
Proof. exact (range_from_batch_run ids sp u p (length ids) 0 logs). Qed.

Lemma batches_150 {A} (xs : list A) :
  length xs = 150 -> batches 100 xs = [firstn 100 xs; skipn 100 xs].
Proof.
  intros Hlen. unfold batches. rewrite Hlen. change 150 with (S (S 148)).
  destruct xs as [|x xs']; [discriminate|]. cbn [batches_from].
  destruct (skipn 100 (x :: xs')) as [|y ys] eqn:Hskip.
  - apply (f_equal (@length _)) in Hskip. rewrite length_skipn, Hlen in Hskip. discriminate.
  - rewrite <- Hskip. f_equal. f_equal.
    + apply firstn_all2. rewrite length_skipn, Hlen. cbn. lia.
    + rewrite skipn_skipn, skipn_all2 by (rewrite Hlen; cbn; lia). reflexivity.
Qed.

(** C8 -- Batch add.  When the add-tracks endpoint accepts every batch,
    [add_tracks_in_batches] returns after one API call and one log line
    per consecutive slice of at most 100 ids, in list order, the log line
    carrying the batch's number (from 1) and size.  The number of calls is
    the ceiling of [n/100], every batch holds between 1 and 100 ids, batch
    [k] is the slice starting at [100*k], and the batches concatenate to
    the input.  For 150 ids there are two calls, the first 100 ids and then
    the remaining 50, logged as batch 1 and batch 2.  (Against a client
    that may reject a batch, the same calls are issued up to the first
    rejected batch, whose exception leaves the function.) *)
Theorem batch_add_calls :
  forall (sp : Spotify) (username playlist_id : string) (song_ids : list string)
         (logs : list event),
    (forall batch, user_playlist_add_tracks sp username playlist_id batch = inr tt) ->
    let bs := batches 100 song_ids in
    add_tracks_in_batches sp username playlist_id song_ids logs
    = (inr tt, (logs ++ batch_events username playlist_id 1 bs)%list)
    /\ (forall sp',
          add_tracks_in_batches sp' username playlist_id song_ids logs
          = (fst (batch_run sp' username playlist_id 1 bs),
             (logs ++ snd (batch_run sp' username playlist_id 1 bs))%list))
    /\ length bs = (length song_ids + 99) / 100
    /\ concat bs = song_ids
    /\ Forall (fun b => 1 <= length b <= 100) bs
    /\ (forall k, k < length bs -> nth k bs [] = firstn 100 (skipn (100 * k) song_ids))
    /\ (length song_ids = 150 ->
        add_tracks_in_batches sp username playlist_id song_ids logs
        = (inr tt,
           (logs ++ [PlaylistAddTracks username playlist_id (firstn 100 song_ids);
                     Logging INFO "Added batch 1 (100 tracks) to the playlist.";
                     PlaylistAddTracks username playlist_id (skipn 100 song_ids);
                     Logging INFO "Added batch 2 (50 tracks) to the playlist."])%list)).
Proof.
  intros sp u p ids logs Hok bs.
  assert (Hrun : add_tracks_in_batches sp u p ids logs
                 = (inr tt, (logs ++ batch_events u p 1 bs)%list)).
  { rewrite add_tracks_in_batches_run. fold bs.
    now rewrite (batch_run_accepted sp u p Hok). }
  split; [exact Hrun|].
  split; [intros sp'; apply add_tracks_in_batches_run|].
  split; [apply batches_from_length; lia|].
  split; [apply batches_from_concat; lia|].
  split; [apply batches_from_sizes; lia|].
  split; [intros k Hk; apply batches_from_nth; [lia|exact Hk]|].
  intros H150. rewrite Hrun. unfold bs. rewrite (batches_150 ids H150).
  cbn [batch_events]. rewrite length_firstn, length_skipn, H150. reflexivity.
Qed.

Lemma batch_add_calls_witness :
  (forall batch,
      user_playlist_add_tracks (top_tracks_client []) "user" "playlist" batch = inr tt)
  /\ add_tracks_in_batches (top_tracks_client []) "user" "playlist" ids150 []
     = (inr tt,
        [PlaylistAddTracks "user" "playlist" (firstn 100 ids150);
         Logging INFO "Added batch 1 (100 tracks) to the playlist.";
         PlaylistAddTracks "user" "playlist" (skipn 100 ids150);
         Logging INFO "Added batch 2 (50 tracks) to the playlist."]).
Proof.
  split; [reflexivity|].
  apply (proj2 (proj2 (proj2 (proj2 (proj2 (proj2
           (batch_add_calls (top_tracks_client []) "user" "playlist" ids150 []
                            (fun _ => eq_refl)))))))).
  reflexivity.
Defined.

(** A client that rejects the first batch: one call is issued, nothing is
    logged, and the exception leaves the function. *)
Example batch_add_rejected :
  add_tracks_in_batches rejecting_client "user" "playlist" ids150 []
  = (inl (SpotifyException "http status: 403"),
     [PlaylistAddTracks "user" "playlist" (firstn 100 ids150)]).
Proof. vm_compute. reflexivity. Qed.

(** ** Orchestrator *)

Lemma gather_details (difflib : option (string -> string -> Q)) (sp : Spotify)
      (artists : list string) :
  exists results,
    gather (map (fun name => fetch_artist_details difflib sp name) artists) = inr results
    /\ flat_map (fun result => match fst result with
                               | Some artist_data => [artist_data]
                               | None => []
                               end) results
       = resolved difflib sp artists.
Proof.
  induction artists as [|name rest (results & Hg & Hv)].
  - exists []. split; reflexivity.
  - destruct (fetch_artist_details_returns difflib sp name) as (r & logs & Hr).
    exists ((r, logs) :: results). cbn [map gather]. rewrite Hr, Hg. split; [reflexivity|].
    unfold resolved in *. cbn [flat_map fst]. rewrite Hr, Hv. cbn [fst].
    destruct r; reflexivity.
Qed.

Lemma gather_songs (sp : Spotify) (valid_artists : list ArtistData) :
  exists results,
    gather (map (fun details => fetch_top_songs sp details remixes_allowed_genres)
                valid_artists) = inr results
    /\ flat_map fst results = flat_map (selected sp) valid_artists.
Proof.
  induction valid_artists as [|artist rest (results & Hg & Hs)].
  - exists []. split; reflexivity.
  - destruct (fetch_top_songs_returns sp artist remixes_allowed_genres) as (songs & Hr & _).
    destruct (fetch_top_songs sp artist remixes_allowed_genres) as [r logs] eqn:Hrun.
    cbn [fst] in Hr. subst r.
    exists ((songs, logs) :: results). cbn [map gather]. rewrite Hrun, Hg.
    split; [reflexivity|].
    cbn [flat_map fst]. rewrite Hs. unfold selected at 2. now rewrite Hrun.
Qed.

Lemma map_flat_map {A B C} (f : B -> C) (g : A -> list B) (l : list A) :
  map f (flat_map g l) = concat (map (fun x => map f (g x)) l).
Proof.
  induction l as [|x l IH]; [reflexivity|].
  cbn [flat_map map concat]. now rewrite map_app, IH.
Qed.

Lemma selected_at_most_five (sp : Spotify) (artist : ArtistData) :
  length (selected sp artist) <= 5.
Proof.
  unfold selected.
  destruct (fetch_top_songs_returns sp artist remixes_allowed_genres) as (songs & Hr & Hle).
  now rewrite Hr.
Qed.

Lemma quiet_app (l1 l2 : list event) :
  forallb quiet (l1 ++ l2) = forallb quiet l1 && forallb quiet l2.
Proof. apply forallb_app. Qed.

Lemma quiet_prints (logs : list string) : forallb quiet (map Print logs) = true.
Proof. induction logs; [reflexivity|assumption]. Qed.

(** The three phases either touch no playlist at all, or end in phase 3
    run on the ids of the selected songs of the resolved artists. *)
Lemma run_phases_song_ids (difflib : option (string -> string -> Q)) (sp : Spotify)
      (username playlist_name : string) (artists : list string) :
  forallb quiet (fst (run_phases difflib sp username playlist_name artists)) = true
  \/ exists pre,
       forallb quiet pre = true
       /\ fst (run_phases difflib sp username playlist_name artists)
          = snd (playlist_phase sp username playlist_name
                   (concat (map (fun artist => map sd_id (selected sp artist))
                                (resolved difflib sp artists)))
                   pre).
Proof.
  unfold run_phases.
  destruct (gather_details difflib sp artists) as (results1 & -> & Hvalid).
  cbv zeta. rewrite Hvalid.
  destruct (resolved difflib sp artists) as [|a valid'] eqn:Hres.
  - left. cbn [fst]. rewrite quiet_app, quiet_app, quiet_prints. reflexivity.
  - rewrite <- Hres.
    destruct (gather_songs sp (resolved difflib sp artists)) as (results2 & -> & Hsongs).
    destruct (flat_map fst results2) as [|s0 songs'] eqn:Hall.
    + left. cbn [fst]. rewrite !quiet_app, !quiet_prints. reflexivity.
    + rewrite Hsongs, map_flat_map.
      right.
      match goal with |- context [playlist_phase _ _ _ _ ?evs] => exists evs end.
      split; [|destruct (playlist_phase _ _ _ _ _) as [[e|u] ev5]; reflexivity].
      rewrite !quiet_app, !quiet_prints. reflexivity.
Qed.

Lemma create_not_quiet (evs : list event) (username playlist_name : string) :
  In (PlaylistCreate username playlist_name) evs -> forallb quiet evs = true -> False.
Proof.
  intros Hin Hq. rewrite forallb_forall in Hq. specialize (Hq _ Hin). discriminate.
Qed.

(** C7 -- Track-list invariant.  In every run of [main] that issues the
    playlist-creation call, the input file and the token were available,
    and the events of the run are those of phase 3 started, after events
    that touch no playlist, on exactly this id list: the concatenation,
    over the resolved artists in input order, of the ids of each artist's
    selected songs in the order accepted, each artist contributing at most
    five. *)
Theorem track_list_invariant :
  forall (difflib : option (string -> string -> Q)) (w : World)
         (username playlist_name : string),
    In (PlaylistCreate username playlist_name) (fst (main difflib w)) ->
    exists token file pre,
      coachella2026_txt w = Some file
      /\ prompt_for_user_token w (nth 1 (argv w) "") = Some token
      /\ let sp := Spotify_auth w token in
         let artists := map strip (filter (fun artist => nonempty (strip artist)) file) in
         let valid_artists := resolved difflib sp artists in
         let song_ids :=
           concat (map (fun artist => map sd_id (selected sp artist)) valid_artists) in
         Forall (fun artist => length (selected sp artist) <= 5) valid_artists
         /\ forallb quiet pre = true
         /\ fst (main difflib w)
            = snd (playlist_phase sp (nth 1 (argv w) "") "Coachella 2026" song_ids pre).
Proof.
  intros difflib w username playlist_name Hin. unfold main in *.
  destruct (length (argv w) <? 2); [exfalso; now apply (create_not_quiet _ _ _ Hin)|].
  destruct (coachella2026_txt w) as [file|];
    [|exfalso; now apply (create_not_quiet _ _ _ Hin)].
  cbv zeta in Hin |- *.
  destruct (negb (truthy (CLIENT_ID w)) || negb (truthy (CLIENT_SECRET w)));
    [exfalso; now apply (create_not_quiet _ _ _ Hin)|].
  destruct (prompt_for_user_token w (nth 1 (argv w) "")) as [[|c token]|];
    try (exfalso; now apply (create_not_quiet _ _ _ Hin)).
  destruct (run_phases_song_ids difflib (Spotify_auth w (String c token))
              (nth 1 (argv w) "") "Coachella 2026"
              (map strip (filter (fun artist => nonempty (strip artist)) file)))
    as [Hquiet|(pre & Hpre & Hrun)].
  - exfalso. exact (create_not_quiet _ _ _ Hin Hquiet).
  - exists (String c token), file, pre.
    split; [reflexivity|]. split; [reflexivity|].
    split; [apply Forall_forall; intros; apply selected_at_most_five|].
    split; [exact Hpre|exact Hrun].
Qed.

Lemma track_list_invariant_witness :
  In (PlaylistCreate "listener" "Coachella 2026") (fst (main module_difflib daft_punk_world))
  /\ fst (main module_difflib daft_punk_world)
     = [Logging INFO phase1_banner;
        Print "--- Artist Details: Daft Punk ---";
        Print "  > Matched Spotify Name: Daft Punk";
        Print "  > ID: dp";
        Print "  > Genres: french house";
        Logging INFO phase2_banner;
        Print (top_songs_header "Daft Punk" "dp");
        Print "  > Remix Check: Genres permit remixes/edits? True";
        Print "  > ADDED: 'One' | ID: id:One";
        Print "  > ADDED: 'Two' | ID: id:Two";
        Print "  > ADDED: 'Three' | ID: id:Three";
        Print "  > ADDED: 'Four' | ID: id:Four";
        Print "  > ADDED: 'Five' | ID: id:Five";
        Print "  > Final Count: 5 songs added for Daft Punk";
        Logging INFO phase3_banner;
        PlaylistCreate "listener" "Coachella 2026";
        Logging INFO "Successfully created playlist: Coachella 2026";
        PlaylistAddTracks "listener" "playlist-1"
          ["id:One"; "id:Two"; "id:Three"; "id:Four"; "id:Five"];
        Logging INFO "Added batch 1 (5 tracks) to the playlist.";
        Logging INFO (nl ++ "Playlist 'Coachella 2026' was created successfully with 5 songs 🎉")]
  /\ exists token file pre,
      coachella2026_txt daft_punk_world = Some file
      /\ prompt_for_user_token daft_punk_world (nth 1 (argv daft_punk_world) "") = Some token
      /\ Forall (fun artist => length (selected (Spotify_auth daft_punk_world token) artist) <= 5)
                (resolved module_difflib (Spotify_auth daft_punk_world token)
                          (map strip (filter (fun artist => nonempty (strip artist)) file)))
      /\ forallb quiet pre = true
      /\ fst (main module_difflib daft_punk_world)
         = snd (playlist_phase (Spotify_auth daft_punk_world token)
                  (nth 1 (argv daft_punk_world) "") "Coachella 2026"
                  (concat (map (fun artist =>
                                  map sd_id (selected (Spotify_auth daft_punk_world token) artist))
                               (resolved module_difflib (Spotify_auth daft_punk_world token)
                                  (map strip
                                     (filter (fun artist => nonempty (strip artist)) file)))))
                  pre).
Proof.
  assert (Hin : In (PlaylistCreate "listener" "Coachella 2026")
                   (fst (main module_difflib daft_punk_world))).
  { vm_compute. do 15 right. left. reflexivity. }
  split; [exact Hin|]. split; [vm_compute; reflexivity|].
  exact (track_list_invariant module_difflib daft_punk_world
           "listener" "Coachella 2026" Hin).
Defined.


(** * Further properties of the code *)

(** ** The trace of the three phases *)

Lemma flat_map_map {A B C} (f : A -> B) (g : B -> list C) (l : list A) :
  flat_map g (map f l) = flat_map (fun x => g (f x)) l.
Proof. induction l as [|x l IH]; [reflexivity|]. cbn [map flat_map]. now rewrite IH. Qed.

Lemma gather_map {A B} (f : B -> WorkerResult A) (g : B -> A) (xs : list B) :
  (forall x, fst (f x) = inr (g x)) ->
  gather (map f xs) = inr (map (fun x => (g x, snd (f x))) xs).
Proof.
  intros Hf. induction xs as [|x xs IH]; [reflexivity|].
  cbn [map gather]. specialize (Hf x). destruct (f x) as [r logs]. cbn [fst snd] in *.
  subst r. now rewrite IH.
Qed.

(** Phase 3, for every client: the banner, the creation call, and then
    either the error of a failed creation, or the batches sent, closed by
    the success line or by the error of the rejected batch. *)
Lemma playlist_phase_trace (sp : Spotify) (u pn : string) (ids : list string)
      (evs : list event) :
  playlist_phase sp u pn ids evs
  = (inr tt,
     (evs ++ Logging INFO phase3_banner :: PlaylistCreate u pn
          :: match user_playlist_create sp u pn with
             | inl e => [Logging ERROR (playlist_error_msg e)]
             | inr pid =>
                 Logging INFO (created_msg pn)
                 :: snd (batch_run sp u pid 1 (batches 100 ids))
                 ++ [match fst (batch_run sp u pid 1 (batches 100 ids)) with
                     | inl e => Logging ERROR (playlist_error_msg e)
                     | inr _ => Logging INFO (success_msg pn (length ids))
                     end]
             end)%list).
Proof.
  unfold playlist_phase, playlist_try, playlist_except, playlist_error_msg.
  unfold Py.try_except, Py.bind at 1 2 3, Py.append at 1 2, Py.call.
  destruct (user_playlist_create sp u pn) as [e|pid].
  - destruct (is_SpotifyException e); unfold Py.append; now rewrite <- !app_assoc.
  - unfold Py.bind at 1 2, Py.append at 1. rewrite add_tracks_in_batches_run.
    destruct (batch_run sp u pid 1 (batches 100 ids)) as [[e|[]] sent]; cbn [fst snd].
    + destruct (is_SpotifyException e); unfold Py.append; now rewrite <- !app_assoc.
    + unfold Py.append. now rewrite <- !app_assoc.
Qed.

(** The three phases, for every client: what is logged and printed, in
    order, in terms of the two workers. *)
Lemma run_phases_trace (difflib : option (string -> string -> Q)) (sp : Spotify)
      (u pn : string) (artists : list string) :
  run_phases difflib sp u pn artists
  = let valid := resolved difflib sp artists in
    let songs := flat_map (selected sp) valid in
    let ev2 := (Logging INFO phase1_banner
                :: map Print (flat_map (fun name => snd (fetch_artist_details difflib sp name))
                                       artists))%list in
    let ev4 := (ev2 ++ Logging INFO phase2_banner
                :: map Print (flat_map (fun artist =>
                                          snd (fetch_top_songs sp artist remixes_allowed_genres))
                                       valid))%list in
    match valid with
    | [] => ((ev2 ++ [Logging WARNING no_valid_artists_msg])%list, Returned)
    | _ =>
        match songs with
        | [] => ((ev4 ++ [Logging WARNING no_songs_msg])%list, Returned)
        | _ => (snd (playlist_phase sp u pn (map sd_id songs) ev4), Returned)
        end
    end.
Proof.
  unfold run_phases.
  rewrite (gather_map (fun name => fetch_artist_details difflib sp name)
             (fun name => match fst (fetch_artist_details difflib sp name) with
                          | inr r => r
                          | inl _ => None
                          end)).
  2:{ intros name. destruct (fetch_artist_details_returns difflib sp name) as (r & l & ->).
      reflexivity. }
  cbv zeta. rewrite !flat_map_map. cbn [fst snd].
  assert (Hvalid : flat_map (fun x => match match fst (fetch_artist_details difflib sp x) with
                                              | inl _ => None
                                              | inr r => r
                                              end with
                                        | Some artist_data => [artist_data]
                                        | None => []
                                        end) artists
                   = resolved difflib sp artists).
  { unfold resolved. apply flat_map_ext. intros name.
    destruct (fst (fetch_artist_details difflib sp name)) as [e|[a|]]; reflexivity. }
  rewrite Hvalid. destruct (resolved difflib sp artists) as [|a valid'] eqn:Hres.
  - reflexivity.
  - rewrite <- Hres.
    rewrite (gather_map (fun details => fetch_top_songs sp details remixes_allowed_genres)
               (selected sp)).
    2:{ intros artist. unfold selected.
        destruct (fetch_top_songs_returns sp artist remixes_allowed_genres) as (songs & -> & _).
        reflexivity. }
    rewrite !flat_map_map. cbn [fst snd].
    destruct (flat_map (fun x => selected sp x) (resolved difflib sp artists)) as [|s0 rest]
      eqn:Hsongs.
    + cbn [app]. rewrite <- !app_assoc. reflexivity.
    + rewrite !playlist_phase_trace. cbn [snd app]. rewrite <- !app_assoc. reflexivity.
Qed.


(** ** Start-up of [main] *)








(** ** Phases 1 and 2 *)

Lemma quiet_no_create (evs : list event) :
  forallb quiet evs = true -> existsb is_create evs = false.
Proof.
  induction evs as [|ev evs IH]; [reflexivity|]. cbn [forallb existsb].
  intros H. apply andb_true_iff in H as [Hev Hrest]. rewrite (IH Hrest).
  destruct ev; try discriminate; reflexivity.
Qed.

Lemma batch_run_no_print (sp : Spotify) (u p : string) (bs : list (list string)) :
  forall number, forallb (fun ev => negb (is_print ev)) (snd (batch_run sp u p number bs)) = true.
Proof.
  induction bs as [|b rest IH]; intros number; [reflexivity|]. cbn [batch_run].
  destruct (user_playlist_add_tracks sp u p b); [reflexivity|].
  specialize (IH (S number)). destruct (batch_run sp u p (S number) rest). exact IH.
Qed.

Ltac quiet_trace :=
  repeat (rewrite ?quiet_app, ?quiet_prints; cbn [forallb quiet andb app]);
  reflexivity.

(** X3 -- When a playlist is created (lines 85-87, 107-109).  The three
    phases issue the playlist-creation call exactly when at least one song
    was selected for at least one resolved artist.  When no artist
    resolves, the run ends with the warning of line 86; when artists
    resolve but no song is selected, it ends with the warning of line 108;
    in both cases no playlist call is made. *)
Theorem playlist_created_iff_songs :
  forall (difflib : option (string -> string -> Q)) (sp : Spotify)
         (username playlist_name : string) (artists : list string),
    let trace := fst (run_phases difflib sp username playlist_name artists) in
    let valid := resolved difflib sp artists in
    let songs := flat_map (selected sp) valid in
    (existsb is_create trace = true <-> songs <> [])
    /\ (valid = [] ->
        forallb quiet trace = true
        /\ last trace (Print "") = Logging WARNING no_valid_artists_msg)
    /\ (valid <> [] -> songs = [] ->
        forallb quiet trace = true
        /\ last trace (Print "") = Logging WARNING no_songs_msg).
Proof.
  intros difflib sp u pn artists. cbv zeta. rewrite run_phases_trace. cbv zeta.
  destruct (resolved difflib sp artists) as [|a valid'] eqn:Hres.
  - cbn [flat_map fst]. repeat split; try congruence.
    + intros H. rewrite quiet_no_create in H; [discriminate|]. quiet_trace.
    + quiet_trace.
    + apply last_last.
  - destruct (flat_map (selected sp) (a :: valid')) as [|s0 songs'] eqn:Hsongs.
    + cbn [fst].
      assert (Hq : forallb quiet
                     ((Logging INFO phase1_banner
                       :: map Print (flat_map (fun name =>
                                                 snd (fetch_artist_details difflib sp name))
                                              artists))
                      ++ Logging INFO phase2_banner
                      :: map Print (flat_map (fun artist =>
                                                snd (fetch_top_songs sp artist
                                                                     remixes_allowed_genres))
                                             (a :: valid')))%list = true).
      { quiet_trace. }
      repeat split; try congruence.
      * intros H. rewrite quiet_no_create in H; [discriminate|].
        rewrite quiet_app, Hq. reflexivity.
      * rewrite quiet_app, Hq. reflexivity.
      * apply last_last.
    + rewrite playlist_phase_trace. cbn [fst snd]. repeat split; try congruence.
      intros _. rewrite existsb_app. cbn [existsb is_create]. now rewrite !orb_true_r.
Qed.

Lemma playlist_created_iff_songs_witness :
  resolved module_difflib (search_client []) ["Nobody"] = []
  /\ forallb quiet (fst (run_phases module_difflib (search_client []) "listener"
                                    "Coachella 2026" ["Nobody"])) = true
  /\ last (fst (run_phases module_difflib (search_client []) "listener"
                           "Coachella 2026" ["Nobody"])) (Print "")
     = Logging WARNING no_valid_artists_msg.
Proof.
  split; [reflexivity|].
  exact (proj1 (proj2 (playlist_created_iff_songs module_difflib (search_client [])
                         "listener" "Coachella 2026" ["Nobody"])) eq_refl).
Defined.

(** X4 -- Order of the output (lines 66-105).  The trace of the phases
    starts with the phase-1 banner, followed by the log lines of the
    resolver for every query, printed in input order.  When some artist
    resolved, the phase-2 banner comes next, followed by the log lines of
    the selector for every resolved artist, in order; nothing is printed
    after that. *)
Theorem phase_output_order :
  forall (difflib : option (string -> string -> Q)) (sp : Spotify)
         (username playlist_name : string) (artists : list string),
    let valid := resolved difflib sp artists in
    let printed1 :=
      map Print (flat_map (fun name => snd (fetch_artist_details difflib sp name)) artists) in
    let printed2 :=
      map Print (flat_map (fun artist =>
                             snd (fetch_top_songs sp artist remixes_allowed_genres)) valid) in
    exists tail,
      fst (run_phases difflib sp username playlist_name artists)
      = (Logging INFO phase1_banner :: printed1 ++ tail)%list
      /\ (valid = [] -> tail = [Logging WARNING no_valid_artists_msg])
      /\ (valid <> [] ->
          exists tail',
            tail = (Logging INFO phase2_banner :: printed2 ++ tail')%list
            /\ forallb (fun ev => negb (is_print ev)) tail' = true).
Proof.
  intros difflib sp u pn artists. cbv zeta. rewrite run_phases_trace. cbv zeta.
  destruct (resolved difflib sp artists) as [|a valid'] eqn:Hres.
  - eexists. cbn [fst app]. split; [reflexivity|]. split; [reflexivity|congruence].
  - destruct (flat_map (selected sp) (a :: valid')) as [|s0 songs'] eqn:Hsongs.
    + eexists. cbn [fst app]. rewrite <- app_assoc. split; [reflexivity|].
      split; [congruence|]. intros _. eexists. cbn [app]. split; reflexivity.
    + rewrite playlist_phase_trace. eexists. cbn [fst snd app]. rewrite <- !app_assoc.
      split; [reflexivity|]. split; [congruence|]. intros _. eexists. cbn [app].
      split; [reflexivity|]. cbn [forallb is_print negb andb].
      destruct (user_playlist_create sp u pn) as [e|pid]; [reflexivity|].
      cbn [forallb is_print negb andb]. rewrite forallb_app, batch_run_no_print.
      destruct (fst (batch_run _ _ _ _ _)); reflexivity.
Qed.

Lemma phase_output_order_witness :
  resolved module_difflib (Spotify_auth daft_punk_world "token") ["Daft Punk"] <> []
  /\ exists tail,
      fst (run_phases module_difflib (Spotify_auth daft_punk_world "token") "listener"
                      "Coachella 2026" ["Daft Punk"])
      = (Logging INFO phase1_banner
         :: map Print (flat_map (fun name =>
                                   snd (fetch_artist_details module_difflib
                                          (Spotify_auth daft_punk_world "token") name))
                                ["Daft Punk"]) ++ tail)%list
      /\ exists tail',
          tail = (Logging INFO phase2_banner
                  :: map Print
                       (flat_map (fun artist =>
                                    snd (fetch_top_songs (Spotify_auth daft_punk_world "token")
                                                         artist remixes_allowed_genres))
                                 (resolved module_difflib
                                           (Spotify_auth daft_punk_world "token")
                                           ["Daft Punk"])) ++ tail')%list
          /\ forallb (fun ev => negb (is_print ev)) tail' = true.
Proof.
  assert (Hne : resolved module_difflib (Spotify_auth daft_punk_world "token") ["Daft Punk"]
                <> []) by (vm_compute; discriminate).
  split; [exact Hne|].
  destruct (phase_output_order module_difflib (Spotify_auth daft_punk_world "token")
              "listener" "Coachella 2026" ["Daft Punk"]) as (tail & Htrace & _ & Htail).
  exists tail. split; [exact Htrace|]. exact (Htail Hne).
Defined.

(** ** Phase 3 *)

Lemma batch_run_rejected (sp : Spotify) (u p : string) (e : exn) (b : list string)
      (post : list (list string)) :
  user_playlist_add_tracks sp u p b = inl e ->
  forall pre number,
    (forall b', In b' pre -> user_playlist_add_tracks sp u p b' = inr tt) ->
    batch_run sp u p number (pre ++ b :: post)
    = (inl e, (batch_events u p number pre ++ [PlaylistAddTracks u p b])%list).
Proof.
  intros Hb. induction pre as [|b0 pre IH]; intros number Hpre.
  - cbn [app batch_run batch_events]. now rewrite Hb.
  - cbn [app batch_run batch_events]. rewrite (Hpre b0) by now left.
    rewrite IH by (intros b' Hin; apply Hpre; now right). reflexivity.
Qed.

(** X5 -- Failures in phase 3 (lines 116-128).  Phase 3 always returns
    normally.  When the creation call raises, no batch is sent and the
    trace ends with one ERROR line for that exception.  When the creation
    succeeds and a batch is rejected, every batch before it has been sent
    and logged, the rejected batch has been attempted, no later batch is
    sent, the success line is not logged and the trace ends with one ERROR
    line for that exception; nothing already added is taken back. *)
Theorem playlist_phase_failure :
  forall (sp : Spotify) (username playlist_name : string) (song_ids : list string)
         (evs : list event),
    (forall e,
        user_playlist_create sp username playlist_name = inl e ->
        playlist_phase sp username playlist_name song_ids evs
        = (inr tt,
           (evs ++ [Logging INFO phase3_banner; PlaylistCreate username playlist_name;
                    Logging ERROR (playlist_error_msg e)])%list))
    /\ (forall playlist_id pre b post e,
          user_playlist_create sp username playlist_name = inr playlist_id ->
          batches 100 song_ids = (pre ++ b :: post)%list ->
          (forall b', In b' pre ->
                      user_playlist_add_tracks sp username playlist_id b' = inr tt) ->
          user_playlist_add_tracks sp username playlist_id b = inl e ->
          playlist_phase sp username playlist_name song_ids evs
          = (inr tt,
             (evs ++ Logging INFO phase3_banner :: PlaylistCreate username playlist_name
                  :: Logging INFO (created_msg playlist_name)
                  :: batch_events username playlist_id 1 pre
                  ++ [PlaylistAddTracks username playlist_id b;
                      Logging ERROR (playlist_error_msg e)])%list)).
Proof.
  intros sp u pn ids evs. split.
  - intros e Hcreate. now rewrite playlist_phase_trace, Hcreate.
  - intros pid pre b post e Hcreate Hbatches Hpre Hb.
    rewrite playlist_phase_trace, Hcreate, Hbatches.
    rewrite (batch_run_rejected sp u pid e b post Hb pre 1 Hpre). cbn [fst snd].
    now rewrite <- app_assoc.
Qed.

Lemma playlist_phase_failure_witness :
  (user_playlist_create (create_failing_client (SpotifyException "http status: 401"))
                        "listener" "Coachella 2026"
   = inl (SpotifyException "http status: 401")
   /\ playlist_phase (create_failing_client (SpotifyException "http status: 401"))
                     "listener" "Coachella 2026" ids150 []
      = (inr tt,
         [Logging INFO phase3_banner; PlaylistCreate "listener" "Coachella 2026";
          Logging ERROR
            "Spotify API Error during playlist creation or track addition: http status: 401"]))
  /\ (batches 100 ids150 = ([firstn 100 ids150] ++ skipn 100 ids150 :: [])%list
      /\ user_playlist_add_tracks short_batch_rejecting_client "listener" "playlist"
                                  (skipn 100 ids150)
         = inl (OtherException "connection reset")
      /\ playlist_phase short_batch_rejecting_client "listener" "Coachella 2026" ids150 []
         = (inr tt,
            [Logging INFO phase3_banner; PlaylistCreate "listener" "Coachella 2026";
             Logging INFO "Successfully created playlist: Coachella 2026";
             PlaylistAddTracks "listener" "playlist" (firstn 100 ids150);
             Logging INFO "Added batch 1 (100 tracks) to the playlist.";
             PlaylistAddTracks "listener" "playlist" (skipn 100 ids150);
             Logging ERROR "An unexpected error occurred: connection reset"])).
Proof.
  split.
  - split; [reflexivity|].
    exact (proj1 (playlist_phase_failure
                    (create_failing_client (SpotifyException "http status: 401"))
                    "listener" "Coachella 2026" ids150 [])
             (SpotifyException "http status: 401") eq_refl).
  - split; [reflexivity|]. split; [reflexivity|].
    apply (proj2 (playlist_phase_failure short_batch_rejecting_client
                    "listener" "Coachella 2026" ids150 [])
             "playlist" [firstn 100 ids150] (skipn 100 ids150) []
             (OtherException "connection reset")).
    + reflexivity.
    + reflexivity.
    + intros b' [<-|[]]. reflexivity.
    + reflexivity.
Defined.

(** X6 -- Success in phase 3 (lines 114-122).  When the creation call
    returns a playlist id and the add-tracks endpoint accepts every batch,
    the trace of phase 3 is the banner, the creation call, its
    confirmation, one call and one log line per batch of at most 100 ids
    sent to the playlist just created, and a closing line that reports the
    number of ids; the ids sent are exactly the ids given, in order. *)
Theorem playlist_phase_success :
  forall (sp : Spotify) (username playlist_name playlist_id : string)
         (song_ids : list string) (evs : list event),
    user_playlist_create sp username playlist_name = inr playlist_id ->
    (forall batch, user_playlist_add_tracks sp username playlist_id batch = inr tt) ->
    playlist_phase sp username playlist_name song_ids evs
    = (inr tt,
       (evs ++ Logging INFO phase3_banner :: PlaylistCreate username playlist_name
            :: Logging INFO (created_msg playlist_name)
            :: batch_events username playlist_id 1 (batches 100 song_ids)
            ++ [Logging INFO (success_msg playlist_name (length song_ids))])%list)
    /\ sent_ids (batch_events username playlist_id 1 (batches 100 song_ids)) = song_ids.
Proof.
  intros sp u pn pid ids evs Hcreate Hok. split.
  - rewrite playlist_phase_trace, Hcreate, (batch_run_accepted sp u pid Hok). reflexivity.
  - unfold sent_ids.
    assert (Hsent : forall bs number, sent_batches (batch_events u pid number bs) = bs).
    { induction bs as [|b rest IH]; intros number; [reflexivity|].
      cbn [batch_events sent_batches flat_map app]. f_equal. apply IH. }
    rewrite Hsent. apply batches_from_concat; lia.
Qed.

Lemma playlist_phase_success_witness :
  user_playlist_create (top_tracks_client []) "listener" "Coachella 2026" = inr "playlist"
  /\ (forall batch,
         user_playlist_add_tracks (top_tracks_client []) "listener" "playlist" batch = inr tt)
  /\ playlist_phase (top_tracks_client []) "listener" "Coachella 2026" ["a"; "b"; "c"] []
     = (inr tt,
        [Logging INFO phase3_banner; PlaylistCreate "listener" "Coachella 2026";
         Logging INFO "Successfully created playlist: Coachella 2026";
         PlaylistAddTracks "listener" "playlist" ["a"; "b"; "c"];
         Logging INFO "Added batch 1 (3 tracks) to the playlist.";
         Logging INFO (success_msg "Coachella 2026" 3)]).
Proof.
  split; [reflexivity|]. split; [reflexivity|].
  exact (proj1 (playlist_phase_success (top_tracks_client []) "listener" "Coachella 2026"
                  "playlist" ["a"; "b"; "c"] [] eq_refl (fun _ => eq_refl))).
Defined.

Lemma sent_batches_app (evs1 evs2 : list event) :
  sent_batches (evs1 ++ evs2) = (sent_batches evs1 ++ sent_batches evs2)%list.
Proof. apply flat_map_app. Qed.

Lemma sent_ids_app (evs1 evs2 : list event) :
  sent_ids (evs1 ++ evs2) = (sent_ids evs1 ++ sent_ids evs2)%list.
Proof. unfold sent_ids. now rewrite sent_batches_app, concat_app. Qed.

Lemma batch_run_sent (sp : Spotify) (u p : string) (bs : list (list string)) :
  forall number,
  exists m,
    m <= length bs
    /\ sent_batches (snd (batch_run sp u p number bs)) = firstn m bs
    /\ (fst (batch_run sp u p number bs) = inr tt -> m = length bs).
Proof.
  induction bs as [|b rest IH]; intros number.
  - exists 0. repeat split; reflexivity || (cbn; lia).
  - cbn [batch_run]. destruct (user_playlist_add_tracks sp u p b) as [e|[]].
    + exists 1. cbn [fst snd length]. repeat split; [lia|discriminate].
    + destruct (IH (S number)) as (m & Hm & Hsent & Hall).
      destruct (batch_run sp u p (S number) rest) as [outcome evs]. cbn [fst snd] in *.
      exists (S m). cbn [length]. repeat split; [lia| |].
      * cbn [sent_batches flat_map app firstn]. f_equal. exact Hsent.
      * intros Hok. now rewrite (Hall Hok).
Qed.

(** X7 -- What has been sent, for every client (lines 269-278).  Whatever
    the add-tracks endpoint does, the ids [add_tracks_in_batches] has
    handed to it are a prefix of the id list, in order and without
    repetition or gap; when the function returns normally they are the
    whole list. *)
Theorem sent_ids_prefix :
  forall (sp : Spotify) (username playlist_id : string) (song_ids : list string)
         (logs : list event),
  exists sent rest,
    sent_ids (snd (add_tracks_in_batches sp username playlist_id song_ids logs))
    = (sent_ids logs ++ sent)%list
    /\ song_ids = (sent ++ rest)%list
    /\ (fst (add_tracks_in_batches sp username playlist_id song_ids logs) = inr tt ->
        rest = []).
Proof.
  intros sp u p ids logs. rewrite add_tracks_in_batches_run. cbn [fst snd].
  destruct (batch_run_sent sp u p (batches 100 ids) 1) as (m & Hm & Hsent & Hall).
  exists (concat (firstn m (batches 100 ids))), (concat (skipn m (batches 100 ids))).
  split; [|split].
  - rewrite sent_ids_app. unfold sent_ids at 2. now rewrite Hsent.
  - rewrite <- concat_app, firstn_skipn. symmetry. apply batches_from_concat; lia.
  - intros Hok. rewrite (Hall Hok), skipn_all. reflexivity.
Qed.

Lemma quiet_nothing_sent (evs : list event) :
  forallb quiet evs = true -> sent_batches evs = [].
Proof.
  induction evs as [|ev evs IH]; [reflexivity|]. cbn [forallb]. intros H.
  apply andb_true_iff in H as [Hev Hrest]. cbn [sent_batches flat_map].
  fold (sent_batches evs). rewrite (IH Hrest). destruct ev; try discriminate; reflexivity.
Qed.

Lemma resolved_length (difflib : option (string -> string -> Q)) (sp : Spotify)
      (artists : list string) :
  length (resolved difflib sp artists) <= length artists.
Proof.
  unfold resolved. induction artists as [|name rest IH]; [reflexivity|].
  cbn [flat_map]. rewrite length_app. cbn [length].
  destruct (fst (fetch_artist_details difflib sp name)) as [e|[a|]]; cbn [length]; lia.
Qed.

Lemma selected_total_length (sp : Spotify) (valid : list ArtistData) :
  length (flat_map (selected sp) valid) <= 5 * length valid.
Proof.
  induction valid as [|a rest IH]; [reflexivity|].
  cbn [flat_map]. rewrite length_app. cbn [length].
  pose proof (selected_at_most_five sp a). lia.
Qed.

Lemma run_phases_sent_bound (difflib : option (string -> string -> Q)) (sp : Spotify)
      (u pn : string) (artists : list string) :
  length (sent_ids (fst (run_phases difflib sp u pn artists))) <= 5 * length artists.
Proof.
  destruct (run_phases_song_ids difflib sp u pn artists) as [Hq|(pre & Hpre & ->)].
  - unfold sent_ids. rewrite (quiet_nothing_sent _ Hq). cbn. lia.
  - rewrite playlist_phase_trace. cbn [snd]. rewrite sent_ids_app.
    unfold sent_ids at 1. rewrite (quiet_nothing_sent _ Hpre). cbn [concat app].
    unfold sent_ids. cbn [sent_batches flat_map app].
    destruct (user_playlist_create sp u pn) as [e|pid]; [cbn; lia|].
    cbn [flat_map app]. fold (sent_batches
      (snd (batch_run sp u pid 1
              (batches 100 (concat (map (fun artist => map sd_id (selected sp artist))
                                        (resolved difflib sp artists)))))
       ++ [match fst (batch_run sp u pid 1
                        (batches 100 (concat (map (fun artist => map sd_id (selected sp artist))
                                                  (resolved difflib sp artists))))) with
            | inl e => Logging ERROR (playlist_error_msg e)
            | inr _ => Logging INFO (success_msg pn
                         (length (concat (map (fun artist => map sd_id (selected sp artist))
                                              (resolved difflib sp artists)))))
            end])).
    rewrite sent_batches_app.
    set (ids := concat (map (fun artist => map sd_id (selected sp artist))
                            (resolved difflib sp artists))).
    destruct (batch_run_sent sp u pid (batches 100 ids) 1) as (m & Hm & Hsent & _).
    rewrite Hsent.
    assert (Hlast : forall ev, quiet ev = true -> sent_batches [ev] = []).
    { intros ev Hev. apply quiet_nothing_sent. cbn. now rewrite Hev. }
    rewrite Hlast by (destruct (fst (batch_run sp u pid 1 (batches 100 ids))); reflexivity).
    rewrite app_nil_r.
    assert (Hids : length ids <= 5 * length artists).
    { unfold ids. rewrite <- map_flat_map, length_map.
      pose proof (selected_total_length sp (resolved difflib sp artists)).
      pose proof (resolved_length difflib sp artists). lia. }
    assert (Hprefix : length (concat (firstn m (batches 100 ids))) <= length ids).
    { rewrite <- (batches_from_concat 100 ltac:(lia) (length ids) ids (le_n _)) at 2.
      fold (batches 100 ids).
      rewrite <- (firstn_skipn m (batches 100 ids)) at 2.
      rewrite concat_app, length_app. lia. }
    lia.
Qed.

(** X8 -- Size of the playlist (lines 20-128).  In every run of [main]
    that finds its input file, the ids handed to the add-tracks endpoint
    number at most five per line of the file. *)
Theorem playlist_size_bound :
  forall (difflib : option (string -> string -> Q)) (w : World) (file : list string),
    coachella2026_txt w = Some file ->
    length (sent_ids (fst (main difflib w))) <= 5 * length file.
Proof.
  intros difflib w file Hfile. unfold main. rewrite Hfile.
  destruct (length (argv w) <? 2); [cbn; lia|]. cbv zeta.
  destruct (negb (truthy (CLIENT_ID w)) || negb (truthy (CLIENT_SECRET w))); [cbn; lia|].
  destruct (prompt_for_user_token w (nth 1 (argv w) "")) as [[|c token]|];
    try (cbn; lia).
  etransitivity; [apply run_phases_sent_bound|].
  rewrite length_map. pose proof (filter_length_le (fun artist => nonempty (strip artist)) file).
  lia.
Qed.

Lemma playlist_size_bound_witness :
  coachella2026_txt daft_punk_world = Some ["Daft Punk" ++ nl]
  /\ length (sent_ids (fst (main module_difflib daft_punk_world)))
     <= 5 * length ["Daft Punk" ++ nl].
Proof.
  split; [reflexivity|].
  exact (playlist_size_bound module_difflib daft_punk_world ["Daft Punk" ++ nl] eq_refl).
Defined.

Lemma sent_ids_prefix_witness :
  exists sent rest,
    sent_ids (snd (add_tracks_in_batches short_batch_rejecting_client "listener" "playlist"
                                         ids150 []))
    = (sent_ids [] ++ sent)%list
    /\ ids150 = (sent ++ rest)%list
    /\ (fst (add_tracks_in_batches short_batch_rejecting_client "listener" "playlist"
                                   ids150 []) = inr tt -> rest = []).
Proof.
  exact (sent_ids_prefix short_batch_rejecting_client "listener" "playlist" ids150 []).
Defined.

Lemma control_app (evs1 evs2 : list event) :
  control (evs1 ++ evs2) = (control evs1 ++ control evs2)%list.
Proof. apply filter_app. Qed.

Lemma control_prints (logs : list string) : control (map Print logs) = [].
Proof. induction logs; [reflexivity|assumption]. Qed.

(** X9 -- A query that does not resolve (lines 74-78).  A query for which
    the resolver returns no artist -- because the search raised, returned
    nothing, or returned no acceptable candidate -- changes nothing but
    printed lines: the log calls and the playlist calls of the run are
    those of the run without that query. *)
Theorem unresolved_query_skipped :
  forall (difflib : option (string -> string -> Q)) (sp : Spotify)
         (username playlist_name : string) (before after : list string) (name : string),
    fst (fetch_artist_details difflib sp name) = inr None ->
    control (fst (run_phases difflib sp username playlist_name (before ++ name :: after)))
    = control (fst (run_phases difflib sp username playlist_name (before ++ after))).
Proof.
  intros difflib sp u pn before after name Hnone.
  assert (Hres : resolved difflib sp (before ++ name :: after)
                 = resolved difflib sp (before ++ after)).
  { unfold resolved. rewrite !flat_map_app. cbn [flat_map]. now rewrite Hnone. }
  rewrite !run_phases_trace. cbv zeta. rewrite Hres.
  destruct (resolved difflib sp (before ++ after)) as [|a valid']; cbn [fst].
  - rewrite !control_app. cbn [control filter]. fold (control (map Print
      (flat_map (fun name0 => snd (fetch_artist_details difflib sp name0))
                (before ++ name :: after)))).
    fold (control (map Print
      (flat_map (fun name0 => snd (fetch_artist_details difflib sp name0))
                (before ++ after)))).
    now rewrite !control_prints.
  - destruct (flat_map (selected sp) (a :: valid')) as [|s0 songs'].
    + cbn [fst]. rewrite !control_app. cbn [control filter].
      fold (control (map Print
        (flat_map (fun name0 => snd (fetch_artist_details difflib sp name0))
                  (before ++ name :: after)))).
      fold (control (map Print
        (flat_map (fun name0 => snd (fetch_artist_details difflib sp name0))
                  (before ++ after)))).
      now rewrite !control_prints.
    + rewrite !playlist_phase_trace. cbn [fst snd]. rewrite !control_app.
      f_equal. f_equal. cbn [control filter].
      fold (control (map Print
        (flat_map (fun name0 => snd (fetch_artist_details difflib sp name0))
                  (before ++ name :: after)))).
      fold (control (map Print
        (flat_map (fun name0 => snd (fetch_artist_details difflib sp name0))
                  (before ++ after)))).
      now rewrite !control_prints.
Qed.

Lemma unresolved_query_skipped_witness :
  fst (fetch_artist_details module_difflib (Spotify_auth daft_punk_world "token") "Daft Pnk")
  = inr None
  /\ control (fst (run_phases module_difflib (Spotify_auth daft_punk_world "token")
                              "listener" "Coachella 2026"
                              (["Daft Punk"] ++ "Daft Pnk" :: [])))
     = control (fst (run_phases module_difflib (Spotify_auth daft_punk_world "token")
                                "listener" "Coachella 2026" (["Daft Punk"] ++ []))).
Proof.
  split; [reflexivity|].
  exact (unresolved_query_skipped module_difflib (Spotify_auth daft_punk_world "token")
           "listener" "Coachella 2026" ["Daft Punk"] [] "Daft Pnk" eq_refl).
Defined.

(** ** More on the Artist Resolver *)








(** ** More on the Track Selector *)

Lemma examined_prefix (allow : bool) (ts : list Track) :
  forall need, exists n, n <= length ts /\ examined allow need ts = firstn n ts.
Proof.
  induction ts as [|t rest IH]; intros need.
  - exists 0. split; [reflexivity|]. now destruct need.
  - destruct need as [|k].
    + exists 0. split; [cbn; lia|reflexivity].
    + cbn [examined].
      destruct (IH (if accepts allow t then k else S k)) as (n & Hn & ->).
      exists (S n). split; [cbn; lia|reflexivity].
Qed.

Lemma examined_all_accepted (allow : bool) (ts : list Track) :
  (forall t, In t ts -> accepts allow t = true) ->
  forall need, examined allow need ts = firstn need ts.
Proof.
  induction ts as [|t rest IH]; intros Hall need.
  - now destruct need.
  - destruct need as [|k]; [reflexivity|]. cbn [examined firstn].
    rewrite (Hall t) by now left. rewrite IH by (intros t' Hin; apply Hall; now right).
    reflexivity.
Qed.

Lemma examined_short (allow : bool) (ts : list Track) :
  forall need, length (filter (accepts allow) ts) < need -> examined allow need ts = ts.
Proof.
  induction ts as [|t rest IH]; intros need Hshort.
  - now destruct need.
  - destruct need as [|k]; [lia|]. cbn [examined]. cbn [filter] in Hshort.
    destruct (accepts allow t); cbn [length] in Hshort; rewrite IH by lia; reflexivity.
Qed.

Lemma filter_all_true {A} (f : A -> bool) (l : list A) :
  (forall x, In x l -> f x = true) -> filter f l = l.
Proof.
  induction l as [|x l IH]; intros Hall; [reflexivity|]. cbn [filter].
  rewrite (Hall x) by now left. rewrite IH by (intros y Hin; apply Hall; now right).
  reflexivity.
Qed.

(** X13 -- Where the selected songs come from (lines 212-259).  Whenever
    the top-tracks call returns, the songs of [fetch_top_songs] are the
    accepted tracks of the first [n] tracks of the response, for some
    [n <= 10], in the order of the response, each carrying the artist's
    name and id; a track behind the tenth is never returned. *)
Theorem selected_from_prefix :
  forall (sp : Spotify) (artist : ArtistData) (remixes : list string)
         (all_tracks : list Track),
    artist_top_tracks sp (ad_id artist) = inr all_tracks ->
    let allow := allow_remixes_flag (ad_genres artist) remixes in
    exists n,
      n <= 10
      /\ fst (fetch_top_songs sp artist remixes)
         = inr (map (mk_song (ad_name artist) (ad_id artist))
                    (filter (accepts allow) (firstn n all_tracks))).
Proof.
  intros sp artist remixes all_tracks Hcall allow.
  destruct all_tracks as [|t0 ts0].
  - exists 0. split; [lia|]. now rewrite (fetch_top_songs_empty _ _ _ Hcall).
  - rewrite (fetch_top_songs_tracks _ _ _ _ Hcall) by discriminate. fold allow.
    destruct (examined_prefix allow (firstn 10 (t0 :: ts0)) 5) as (n & Hn & ->).
    exists (Nat.min n 10). split; [lia|]. cbn [fst]. now rewrite firstn_firstn.
Qed.

Lemma selected_from_prefix_witness :
  artist_top_tracks (top_tracks_client six_then_more) (ad_id rock_artist) = inr six_then_more
  /\ exists n,
      n <= 10
      /\ fst (fetch_top_songs (top_tracks_client six_then_more) rock_artist
                              remixes_allowed_genres)
         = inr (map (mk_song (ad_name rock_artist) (ad_id rock_artist))
                    (filter (accepts (allow_remixes_flag (ad_genres rock_artist)
                                                         remixes_allowed_genres))
                            (firstn n six_then_more))).
Proof.
  split; [reflexivity|].
  exact (selected_from_prefix (top_tracks_client six_then_more) rock_artist
           remixes_allowed_genres six_then_more eq_refl).
Defined.

(** X14 -- Nothing to filter (lines 209-247).  When the artist's genres
    allow remixes, or no track among the first ten of the response is a
    remix or edit, [fetch_top_songs] returns the first five tracks of the
    response as they are (all of them when there are fewer than five). *)
Theorem first_five_when_all_accepted :
  forall (sp : Spotify) (artist : ArtistData) (remixes : list string)
         (all_tracks : list Track),
    artist_top_tracks sp (ad_id artist) = inr all_tracks ->
    allow_remixes_flag (ad_genres artist) remixes = true
    \/ (forall t, In t (firstn 10 all_tracks) -> is_remix (track_name t) = false) ->
    fst (fetch_top_songs sp artist remixes)
    = inr (map (mk_song (ad_name artist) (ad_id artist)) (firstn 5 all_tracks)).
Proof.
  intros sp artist remixes all_tracks Hcall Hall.
  set (allow := allow_remixes_flag (ad_genres artist) remixes) in *.
  assert (Hacc : forall t, In t (firstn 10 all_tracks) -> accepts allow t = true).
  { intros t Hin. unfold accepts. destruct Hall as [->|Hnone]; [reflexivity|].
    rewrite (Hnone t Hin). apply orb_true_r. }
  destruct all_tracks as [|t0 ts0].
  - now rewrite (fetch_top_songs_empty _ _ _ Hcall).
  - rewrite (fetch_top_songs_tracks _ _ _ _ Hcall) by discriminate. fold allow. cbn [fst].
    rewrite (examined_all_accepted allow _ Hacc 5), firstn_firstn.
    change (Nat.min 5 10) with 5. rewrite filter_all_true; [reflexivity|].
    intros t Hin. apply Hacc.
    rewrite <- (firstn_skipn 5 (firstn 10 (t0 :: ts0))), firstn_firstn.
    change (Nat.min 5 10) with 5. apply in_or_app. now left.
Qed.

Lemma first_five_when_all_accepted_witness :
  artist_top_tracks (top_tracks_client six_then_more) (ad_id house_artist) = inr six_then_more
  /\ allow_remixes_flag (ad_genres house_artist) remixes_allowed_genres = true
  /\ fst (fetch_top_songs (top_tracks_client six_then_more) house_artist
                          remixes_allowed_genres)
     = inr (map (mk_song "Duo" "artist-2")
                [song "One"; song "Two (Remix)"; song "Three"; song "Four"; song "Five"]).
Proof.
  split; [reflexivity|]. split; [reflexivity|].
  exact (first_five_when_all_accepted (top_tracks_client six_then_more) house_artist
           remixes_allowed_genres six_then_more eq_refl (or_introl eq_refl)).
Defined.

(** X15 -- Fewer than five acceptable tracks (lines 224-257).  When fewer
    than five of the first ten tracks of a non-empty response are
    accepted, [fetch_top_songs] examines exactly those ten (or all, when
    there are fewer), logs one line for each, and returns the accepted
    ones; it does not look behind the tenth track to fill up, and its last
    log line reports the short count. *)
Theorem short_selection :
  forall (sp : Spotify) (artist : ArtistData) (remixes : list string)
         (all_tracks : list Track),
    artist_top_tracks sp (ad_id artist) = inr all_tracks ->
    all_tracks <> [] ->
    let allow := allow_remixes_flag (ad_genres artist) remixes in
    let chosen := filter (accepts allow) (firstn 10 all_tracks) in
    length chosen < 5 ->
    fetch_top_songs sp artist remixes
    = (inr (map (mk_song (ad_name artist) (ad_id artist)) chosen),
       (top_songs_header (ad_name artist) (ad_id artist) :: remix_check_msg allow
          :: map (verdict allow) (firstn 10 all_tracks)
          ++ [final_count_msg (ad_name artist) (length chosen)])%list).
Proof.
  intros sp artist remixes all_tracks Hcall Hne allow chosen Hshort.
  rewrite (fetch_top_songs_tracks _ _ _ _ Hcall Hne). fold allow.
  now rewrite (examined_short allow _ 5 Hshort).
Qed.

Lemma short_selection_witness :
  artist_top_tracks (top_tracks_client four_songs) (ad_id rock_artist) = inr four_songs
  /\ four_songs <> []
  /\ length (filter (accepts (allow_remixes_flag (ad_genres rock_artist)
                                                 remixes_allowed_genres))
                    (firstn 10 four_songs)) < 5
  /\ fetch_top_songs (top_tracks_client four_songs) rock_artist remixes_allowed_genres
     = (inr (map (mk_song "Band" "artist-1")
                 [song "Song (Radio Edit)"; song "Song (Album Edit)"]),
        [top_songs_header "Band" "artist-1"; remix_check_msg false;
         added_msg (song "Song (Radio Edit)"); skipped_msg (song "Song (Edit)");
         added_msg (song "Song (Album Edit)"); skipped_msg (song "Song Remix");
         final_count_msg "Band" 2]).
Proof.
  assert (Hshort : length (filter (accepts (allow_remixes_flag (ad_genres rock_artist)
                                                               remixes_allowed_genres))
                                  (firstn 10 four_songs)) < 5)
    by (vm_compute; lia).
  split; [reflexivity|]. split; [discriminate|]. split; [exact Hshort|].
  apply (short_selection (top_tracks_client four_songs) rock_artist remixes_allowed_genres
           four_songs eq_refl).
  - discriminate.
  - exact Hshort.
Defined.
